(** * Bill extraction endpoint (api/index.py): model and properties

    A shallow embedding of the request pipeline of [api/index.py]:
    the document fetcher [_download_file_to_base64], the model client
    [extract_data_with_llm] with its retry loop, the pydantic models that
    validate the model output, and the aggregation done by the endpoint
    [extract_bill_data].

    Python values that come out of [json.loads] are the type [pyval];
    Python [float] is the kernel's binary64 [float]; exceptions are the
    type [pyexn] and a computation that may raise returns a [result].
    Network calls and [time.sleep] are recorded in a trace of [event]s
    and answered by a [world]. *)

From Stdlib Require Import ZArith List String Ascii Bool Lia Floats.
Import ListNotations.

Set Warnings "-inexact-float,-register-all".

Local Open Scope string_scope.
Local Open Scope list_scope.
Local Open Scope Z_scope.

(** ** Python values and exceptions *)

(** What [json.loads] and [response.json()] produce.  A [dict] is kept as
    an association list with string keys, looked up from the left. *)
Inductive pyval : Type :=
| PNone
| PBool (b : bool)
| PInt (n : Z)
| PFloat (x : float)
| PStr (s : string)
| PList (l : list pyval)
| PDict (d : list (string * pyval)).

(** The [detail] argument of the [HTTPException]s the module raises: a
    text the source fixes, or one of its templates around the text of an
    exception or of the model service's reply. *)
Inductive detail : Type :=
| Detail (text : string)
| DetailDownloadFailed (url50 : string) (e : string)
  (* f"DOCUMENT DOWNLOAD FAILED: URL {url[:50]}... returned error: {e}",
     with the text of the exception *)
| DetailLLMApiError (error_detail : pyval)
  (* f"LLM API Error: {error_detail}", error_detail read from the reply *)
| DetailLLMApiErrorExc (e : string)
  (* f"LLM API Error: {error_detail}", error_detail = str(e); of the text
     the class of the exception is kept *)
| DetailInvalidStructure (e : string).
  (* f"LLM returned invalid or unexpected structure: {e}"; of the text
     the class of the exception is kept *)

(** The exception classes that occur.  [RequestException cls] is any
    subclass [cls] of [requests.exceptions.RequestException]: connection
    errors and timeouts, the [HTTPError] of [raise_for_status], and the
    [JSONDecodeError] of [response.json()]. *)
Inductive pyexn : Type :=
| HTTPException (status_code : Z) (d : detail)
| RequestException (cls : string)
| ValueError (msg : string)
| KeyError
| IndexError
| JSONDecodeError
| AttributeError
| TypeError
| OverflowError
| RecursionError
| ValidationError.

(** [e.__class__.__name__] *)
Definition class_name (e : pyexn) : string :=
  match e with
  | HTTPException _ _ => "HTTPException"
  | RequestException cls => cls
  | ValueError _ => "ValueError"
  | KeyError => "KeyError"
  | IndexError => "IndexError"
  | JSONDecodeError => "JSONDecodeError"
  | AttributeError => "AttributeError"
  | TypeError => "TypeError"
  | OverflowError => "OverflowError"
  | RecursionError => "RecursionError"
  | ValidationError => "ValidationError"
  end.

(** A computation that returns or raises. *)
Inductive result (A : Type) : Type :=
| Ok (a : A)
| Raise (e : pyexn).
Arguments Ok {A} a.
Arguments Raise {A} e.

Definition bind {A B : Type} (c : result A) (k : A -> result B) : result B :=
  match c with
  | Ok a => k a
  | Raise e => Raise e
  end.

Declare Scope py_scope.
Delimit Scope py_scope with py.
Notation "x <- c ;; k" := (bind c (fun x => k))
  (at level 100, c at next level, right associativity) : py_scope.
Notation "c ;;; k" := (bind c (fun _ => k))
  (at level 100, right associativity) : py_scope.
Local Open Scope py_scope.

(** ** Builtins on strings *)

(** [s.startswith(p)] *)
Definition startswith (s p : string) : bool := String.prefix p s.

(** A Python [str] is held as its UTF-8 bytes.  A character is a byte that
    is not a continuation byte ([10xxxxxx]) with the continuation bytes
    after it. *)
Definition is_continuation (c : ascii) : bool :=
  let n := N_of_ascii c in ((128 <=? n) && (n <? 192))%N.

(** [len(s)]: the number of characters. *)
Fixpoint py_len (s : string) : nat :=
  match s with
  | EmptyString => O
  | String c s' => if is_continuation c then py_len s' else S (py_len s')
  end.

(** [s[:n]]: the first [n] characters, or all of [s] when it has fewer. *)
Fixpoint py_slice_to (n : nat) (s : string) : string :=
  match s with
  | EmptyString => EmptyString
  | String c s' =>
      if is_continuation c then String c (py_slice_to n s')
      else match n with
           | O => EmptyString
           | S n' => String c (py_slice_to n' s')
           end
  end.

(** [s.split(sep)] for a one-character separator: never empty. *)
Fixpoint py_split (sep : ascii) (s : string) : list string :=
  match s with
  | EmptyString => [EmptyString]
  | String c s' =>
      if Ascii.eqb c sep then EmptyString :: py_split sep s'
      else match py_split sep s' with
           | [] => [String c EmptyString]
           | w :: ws => String c w :: ws
           end
  end.

(** [s.split(sep, 1)]: one or two pieces. *)
Fixpoint py_split1 (sep : ascii) (s : string) : list string :=
  match s with
  | EmptyString => [EmptyString]
  | String c s' =>
      if Ascii.eqb c sep then [EmptyString; s']
      else match py_split1 sep s' with
           | [] => [String c EmptyString]
           | w :: ws => String c w :: ws
           end
  end.

(** [l[i]] on a Python list, [IndexError] out of range (no negative index
    is used by the source). *)
Definition py_index {A : Type} (l : list A) (i : nat) : result A :=
  match nth_error l i with
  | Some a => Ok a
  | None => Raise IndexError
  end.

(** ** Builtins on [json] values *)

Fixpoint dict_lookup (k : string) (d : list (string * pyval)) : option pyval :=
  match d with
  | [] => None
  | (k', v) :: d' => if String.eqb k k' then Some v else dict_lookup k d'
  end.

(** [v[k]] with a string key: a [dict] is looked up ([KeyError] when the key
    is missing); a list or a string wants an integer index and every other
    value is not subscriptable ([TypeError]). *)
Definition py_getitem (v : pyval) (k : string) : result pyval :=
  match v with
  | PDict d =>
      match dict_lookup k d with
      | Some x => Ok x
      | None => Raise KeyError
      end
  | _ => Raise TypeError
  end.

(** [v[0]]: the first element of a list, the first character of a string
    ([IndexError] when empty); a [dict] from JSON has no integer key
    ([KeyError]); other values are not subscriptable. *)
Definition py_getitem0 (v : pyval) : result pyval :=
  match v with
  | PList l => py_index l 0
  | PStr s =>
      match s with
      | EmptyString => Raise IndexError
      | String _ _ => Ok (PStr (py_slice_to 1 s))
      end
  | PDict _ => Raise KeyError
  | _ => Raise TypeError
  end.

(** [v.get(k, default)]: only a [dict] has the method. *)
Definition py_get (v : pyval) (k : string) (default : pyval) : result pyval :=
  match v with
  | PDict d =>
      match dict_lookup k d with
      | Some x => Ok x
      | None => Ok default
      end
  | _ => Raise AttributeError
  end.

(** ** Numbers *)

(** Nearest integer to [num / den], halves to the even one ([den > 0]). *)
Definition round_half_even (num den : Z) : Z :=
  let q := num / den in
  let r := num mod den in
  match 2 * r ?= den with
  | Lt => q
  | Gt => q + 1
  | Eq => if Z.even q then q else q + 1
  end.

(** [round(x, 2)] on a float: infinities and NaN round to themselves; a
    finite [x = m * 2^e] goes to the decimal with two places nearest to its
    exact value (halves to even) and back to the nearest binary64, the sign
    kept on a zero result. *)
Definition py_round2 (x : float) : float :=
  match Prim2SF x with
  | S754_finite s m e =>
      let n := if 0 <=? e then Zpos m * 2 ^ e * 100
               else round_half_even (Zpos m * 100) (2 ^ (- e)) in
      match n with
      | Zpos p =>
          SF2Prim (SFdiv prec emax (S754_finite s p 0) (S754_finite false 100 0))
      | _ => SF2Prim (S754_zero s)
      end
  | _ => x
  end.

(** [float(n)] for a Python int: the nearest binary64, [OverflowError] when
    it is out of range. *)
Definition int_to_float (n : Z) : result float :=
  match binary_normalize prec emax n 0 false with
  | S754_infinity _ => Raise OverflowError
  | sf => Ok (SF2Prim sf)
  end.

(** The integer a float is equal to, if any. *)
Definition float_integral (x : float) : option Z :=
  match Prim2SF x with
  | S754_zero _ => Some 0
  | S754_finite s m e =>
      let a := if 0 <=? e then Some (Zpos m * 2 ^ e)
               else if (Zpos m mod 2 ^ (- e)) =? 0 then Some (Zpos m / 2 ^ (- e))
               else None in
      match a with
      | Some a => Some (if s then - a else a)
      | None => None
      end
  | _ => None
  end.

(** The integer pydantic makes of a float: the float has no fractional
    part and lies strictly between [-2^63] and [2^63]; a float outside
    that range is refused, whole as it is. *)
Definition float_as_int (x : float) : option Z :=
  match float_integral x with
  | Some a => if (- 2 ^ 63 <? a) && (a <? 2 ^ 63) then Some a else None
  | None => None
  end.

Definition bool_to_Z (b : bool) : Z := if b then 1 else 0.

(** [a + b] on values from JSON: numbers add ([bool] counts as [int], an
    [int] meeting a [float] is converted first), strings and lists
    concatenate, anything else is a [TypeError]. *)
Definition py_add (a b : pyval) : result pyval :=
  let num (v : pyval) : option (Z + float) :=
    match v with
    | PBool c => Some (inl (bool_to_Z c))
    | PInt n => Some (inl n)
    | PFloat x => Some (inr x)
    | _ => None
    end in
  match num a, num b with
  | Some (inl m), Some (inl n) => Ok (PInt (m + n))
  | Some (inl m), Some (inr y) => x <- int_to_float m ;; Ok (PFloat (x + y)%float)
  | Some (inr x), Some (inl n) => y <- int_to_float n ;; Ok (PFloat (x + y)%float)
  | Some (inr x), Some (inr y) => Ok (PFloat (x + y)%float)
  | _, _ =>
      match a, b with
      | PStr s, PStr t => Ok (PStr (s ++ t)%string)
      | PList l, PList l' => Ok (PList (l ++ l'))
      | _, _ => Raise TypeError
      end
  end.

(** ** [base64.b64encode] *)

Definition b64_alphabet : string :=
  "ABCDEFGHIJKLMNOPQRSTUVWXYZabcdefghijklmnopqrstuvwxyz0123456789+/".

Definition b64_char (n : N) : ascii :=
  match String.get (N.to_nat n) b64_alphabet with
  | Some c => c
  | None => "="%char
  end.

Fixpoint b64encode_bytes (bs : list ascii) : string :=
  match bs with
  | [] => EmptyString
  | [a] =>
      let n := (N_of_ascii a * 16)%N in
      String (b64_char (n / 64)) (String (b64_char (n mod 64)) "==")
  | [a; b] =>
      let n := ((N_of_ascii a * 256 + N_of_ascii b) * 4)%N in
      String (b64_char (n / 4096))
        (String (b64_char (n / 64 mod 64)) (String (b64_char (n mod 64)) "="))
  | a :: b :: c :: rest =>
      let n := ((N_of_ascii a * 256 + N_of_ascii b) * 256 + N_of_ascii c)%N in
      String (b64_char (n / 262144))
        (String (b64_char (n / 4096 mod 64))
           (String (b64_char (n / 64 mod 64))
              (String (b64_char (n mod 64)) (b64encode_bytes rest))))
  end.

(** [base64.b64encode(content).decode('utf-8')], bytes held as a string. *)
Definition b64encode (content : string) : string :=
  b64encode_bytes (list_ascii_of_string content).

(** ** Library behaviour taken as given

    The text parsers of the libraries the module calls.  Every general
    theorem below holds for any such functions; the closed examples run
    [ref_lib]. *)
(** How the JSON decoder fails on a text: the text is not JSON; it has an
    integer with more digits than Python converts (a [ValueError], with
    its message); or it is nested deeper than the interpreter recurses. *)
Inductive decode_error : Type :=
| NotJSON
| IntTooLong (msg : string)
| TooDeep.

Record pylib : Type := {
  (** [json.loads(s)] on a [str]: the value, or [None] when it raises *)
  json_decode : string -> option pyval;
  (** what it raises then *)
  json_decode_error : string -> decode_error;
  (** pydantic's default (lax) mode reading a [str] for a [float] field *)
  str_as_float : string -> option float;
  (** pydantic's default (lax) mode reading a [str] for an [int] field *)
  str_as_int : string -> option Z
}.

(** What [json.loads] raises for a failure of the decoder. *)
Definition loads_exception (f : decode_error) : pyexn :=
  match f with
  | NotJSON => JSONDecodeError
  | IntTooLong msg => ValueError msg
  | TooDeep => RecursionError
  end.

(** [json.loads(v)]: a [str] is parsed; an argument that is not text (the
    values here are never [bytes]) raises [TypeError]. *)
Definition json_loads (L : pylib) (v : pyval) : result pyval :=
  match v with
  | PStr s =>
      match json_decode L s with
      | Some x => Ok x
      | None => Raise (loads_exception (json_decode_error L s))
      end
  | _ => Raise TypeError
  end.

(** ** The pydantic models (lines 20-57) *)

Record BillItem : Type := {
  item_name : string;
  item_amount : float;
  item_rate : float;
  item_quantity : float
}.

Record PagewiseLineItem : Type := {
  page_no : string;
  page_type : string;
  bill_items : list BillItem
}.

Record LLMExtractionOutput : Type := {
  pagewise_line_items : list PagewiseLineItem;
  document_final_total : float
}.

Record TokenUsage : Type := {
  total_tokens : Z;
  input_tokens : Z;
  output_tokens : Z
}.

(** [ExtractionData]; its page list is [pagewise_line_items] in the source,
    a name [LLMExtractionOutput] already has. *)
Record ExtractionData : Type := {
  data_pagewise_line_items : list PagewiseLineItem;
  final_total_extracted : float;
  total_item_count : Z;
  sub_total_extracted : option float
}.

Record ExtractionResponse : Type := {
  is_success : bool;
  token_usage : TokenUsage;
  data : ExtractionData
}.

Record ExtractionRequest : Type := {
  document : string
}.

(** *** Field validation, pydantic v2 defaults (no strict mode is set) *)

Definition validated {A : Type} (o : option A) : result A :=
  match o with
  | Some a => Ok a
  | None => Raise ValidationError
  end.

(** A [str] field takes a string and nothing else. *)
Definition validate_str (v : pyval) : result string :=
  match v with
  | PStr s => Ok s
  | _ => Raise ValidationError
  end.

(** A [float] field takes a float, an int in range, a bool, and text the
    library reads as a number. *)
Definition validate_float (L : pylib) (v : pyval) : result float :=
  match v with
  | PFloat x => Ok x
  | PInt n =>
      match int_to_float n with
      | Ok x => Ok x
      | Raise _ => Raise ValidationError
      end
  | PBool b => Ok (if b then 1%float else 0%float)
  | PStr s => validated (str_as_float L s)
  | _ => Raise ValidationError
  end.

(** An [int] field takes an int, a bool, a float with no fractional part
    within the 64-bit range, and text the library reads as an integer. *)
Definition validate_int (L : pylib) (v : pyval) : result Z :=
  match v with
  | PInt n => Ok n
  | PBool b => Ok (bool_to_Z b)
  | PFloat x => validated (float_as_int x)
  | PStr s => validated (str_as_int L s)
  | _ => Raise ValidationError
  end.

(** A [List[T]] field takes a list all of whose elements validate. *)
Fixpoint validate_each {A : Type} (f : pyval -> result A) (l : list pyval)
  : result (list A) :=
  match l with
  | [] => Ok []
  | v :: l' => a <- f v ;; r <- validate_each f l' ;; Ok (a :: r)
  end.

Definition validate_list {A : Type} (f : pyval -> result A) (v : pyval)
  : result (list A) :=
  match v with
  | PList l => validate_each f l
  | _ => Raise ValidationError
  end.

(** A required field ([Field(...)] or no default): missing is an error;
    keys the model does not declare are ignored. *)
Definition required {A : Type} (f : pyval -> result A)
  (d : list (string * pyval)) (k : string) : result A :=
  match dict_lookup k d with
  | Some v => f v
  | None => Raise ValidationError
  end.

Definition validate_BillItem (L : pylib) (v : pyval) : result BillItem :=
  match v with
  | PDict d =>
      name <- required validate_str d "item_name" ;;
      amount <- required (validate_float L) d "item_amount" ;;
      rate <- required (validate_float L) d "item_rate" ;;
      quantity <- required (validate_float L) d "item_quantity" ;;
      Ok {| item_name := name; item_amount := amount;
            item_rate := rate; item_quantity := quantity |}
  | _ => Raise ValidationError
  end.

Definition validate_PagewiseLineItem (L : pylib) (v : pyval)
  : result PagewiseLineItem :=
  match v with
  | PDict d =>
      no <- required validate_str d "page_no" ;;
      ty <- required validate_str d "page_type" ;;
      items <- required (validate_list (validate_BillItem L)) d "bill_items" ;;
      Ok {| page_no := no; page_type := ty; bill_items := items |}
  | _ => Raise ValidationError
  end.

(** [LLMExtractionOutput] applied to the unpacked [v] (line 186): unpacking wants a mapping. *)
Definition LLMExtractionOutput_init (L : pylib) (v : pyval)
  : result LLMExtractionOutput :=
  match v with
  | PDict d =>
      pages <- required (validate_list (validate_PagewiseLineItem L)) d
                 "pagewise_line_items" ;;
      total <- required (validate_float L) d "document_final_total" ;;
      Ok {| pagewise_line_items := pages; document_final_total := total |}
  | _ => Raise TypeError
  end.

(** The ["token_usage"] dict built at lines 146-150. *)
Record token_usage_counts : Type := {
  tu_input_tokens : pyval;
  tu_output_tokens : pyval;
  tu_total_tokens : pyval
}.

(** The dict [extract_data_with_llm] returns (lines 144-151). *)
Record llm_output : Type := {
  extracted_data : pyval;
  llm_token_usage : token_usage_counts
}.

(** [TokenUsage] applied to the unpacked [token_usage_counts] (line 212) *)
Definition TokenUsage_init (L : pylib) (c : token_usage_counts)
  : result TokenUsage :=
  total <- validate_int L (tu_total_tokens c) ;;
  input <- validate_int L (tu_input_tokens c) ;;
  output <- validate_int L (tu_output_tokens c) ;;
  Ok {| total_tokens := total; input_tokens := input; output_tokens := output |}.

(** ** Aggregation (lines 191-219) *)

(** One turn of the inner loop (lines 200-202). *)
Definition item_step (acc : float * Z) (item : BillItem) : float * Z :=
  let '(page_sum, cumulative_item_count) := acc in
  ((page_sum + item_amount item)%float, cumulative_item_count + 1).

(** One turn of the outer loop (lines 196-207). *)
Definition page_step (acc : float * Z * list PagewiseLineItem)
  (page : PagewiseLineItem) : float * Z * list PagewiseLineItem :=
  let '(cumulative_extracted_total, cumulative_item_count, pagewise_output) := acc in
  let '(page_sum, cumulative_item_count) :=
    fold_left item_step (bill_items page) (0%float, cumulative_item_count) in
  ((cumulative_extracted_total + page_sum)%float,
   cumulative_item_count,
   pagewise_output ++ [page]).

(** The loops run from the initial values of lines 191-193. *)
Definition aggregate (pages : list PagewiseLineItem)
  : float * Z * list PagewiseLineItem :=
  fold_left page_step pages (0%float, 0, []).

(** Lines 187-219: the response built from the validated output. *)
Definition build_response (L : pylib) (extracted : LLMExtractionOutput)
  (counts : token_usage_counts) : result ExtractionResponse :=
  let '(cumulative_extracted_total, cumulative_item_count, pagewise_output) :=
    aggregate (pagewise_line_items extracted) in
  usage <- TokenUsage_init L counts ;;
  Ok {| is_success := true;
        token_usage := usage;
        data := {| data_pagewise_line_items := pagewise_output;
                   final_total_extracted := py_round2 cumulative_extracted_total;
                   total_item_count := cumulative_item_count;
                   sub_total_extracted := None |} |}.

(** Lines 186-219: what the endpoint does with the client's result. *)
Definition process_llm_output (L : pylib) (out : llm_output)
  : result ExtractionResponse :=
  extracted <- LLMExtractionOutput_init L (extracted_data out) ;;
  build_response L extracted (llm_token_usage out).

(** Lines 221-232: an [HTTPException] passes, any other exception becomes
    a 500 that names its class. *)
Definition map_exception {A : Type} (r : result A) : result A :=
  match r with
  | Ok a => Ok a
  | Raise (HTTPException c d) => Raise (HTTPException c d)
  | Raise e =>
      Raise (HTTPException 500
               (Detail ("UNCAUGHT SERVER ERROR: " ++ class_name e
                        ++ ". Check Render logs.")%string))
  end.

(** ** The outside world *)

(** What [requests] hands back: [response.status_code], the
    [Content-Type] header if any, [response.content], the value of
    [response.json()] ([None] when it raises) and how the decoder fails
    when it does. *)
Record Response : Type := {
  status_code : Z;
  content_type_header : option string;
  content : string;
  json_body : option pyval;
  json_error : decode_error
}.

(** A call of [requests.get] or [requests.post] raises a
    [RequestException] of class [cls] (no connection, timeout, ...) or
    returns a response. *)
Inductive reply : Type :=
| Raises (cls : string)
| Responds (r : Response).

(** The request body of the model call (lines 107-119), as far as it
    varies. *)
Record payload : Type := {
  inline_mime_type : string;
  inline_data : string;
  response_schema : pyval
}.

Inductive event : Type :=
| GET (url : string)
| POST (body : payload)
| SLEEP (delay : Z).

(** The configuration and the servers: the value of [API_KEY], what a GET
    of a URL does, the text [str(e)] of the [RequestException] in which
    the fetch of a URL ends when it fails (raised by [requests.get], as
    in 'timed out', or by [raise_for_status], as in '404 Client Error:
    Not Found for url: ...'), and what the model service does at its
    k-th POST. *)
Record world : Type := {
  API_KEY : string;
  requests_get : string -> reply;
  get_error_text : string -> string;
  requests_post : nat -> reply
}.

(** A computation that also does I/O: it extends the trace of events, and
    the trace survives an exception. *)
Definition io (A : Type) : Type := list event -> result A * list event.

Definition io_ret {A : Type} (a : A) : io A := fun t => (Ok a, t).

Definition io_raise {A : Type} (e : pyexn) : io A := fun t => (Raise e, t).

Definition io_lift {A : Type} (r : result A) : io A := fun t => (r, t).

Definition io_bind {A B : Type} (c : io A) (k : A -> io B) : io B :=
  fun t =>
    match c t with
    | (Ok a, t') => k a t'
    | (Raise e, t') => (Raise e, t')
    end.

Definition emit (e : event) : io unit := fun t => (Ok tt, t ++ [e]).

Notation "x <~ c ;; k" := (io_bind c (fun x => k))
  (at level 100, c at next level, right associativity) : py_scope.

Definition is_post (e : event) : bool :=
  match e with
  | POST _ => true
  | _ => false
  end.

Definition count_posts (t : list event) : nat := List.length (filter is_post t).

Definition get (w : world) (url : string) : io reply :=
  fun t => (Ok (requests_get w url), t ++ [GET url]).

Definition post (w : world) (body : payload) : io reply :=
  fun t => (Ok (requests_post w (count_posts t)), t ++ [POST body]).

(** [response.raise_for_status()]: an [HTTPError] for 4xx and 5xx. *)
Definition raise_for_status (r : Response) : result unit :=
  if (400 <=? status_code r) && (status_code r <? 600)
  then Raise (RequestException "HTTPError")
  else Ok tt.

(** What [response.json()] raises for a failure of the decoder: it turns
    the decoder's [JSONDecodeError] into that of [requests], a
    [RequestException], and lets the others through. *)
Definition response_json_exception (f : decode_error) : pyexn :=
  match f with
  | NotJSON => RequestException "JSONDecodeError"
  | IntTooLong msg => ValueError msg
  | TooDeep => RecursionError
  end.

(** [response.json()] *)
Definition response_json (r : Response) : result pyval :=
  match json_body r with
  | Some v => Ok v
  | None => Raise (response_json_exception (json_error r))
  end.

(** ** Document fetcher (lines 62-83) *)

(** Lines 65-75, the body of the [try]. *)
Definition download_try (rep : reply) : result string :=
  match rep with
  | Raises cls => Raise (RequestException cls)
  | Responds response =>
      raise_for_status response ;;;
      let content_type :=
        match content_type_header response with
        | Some ct => ct
        | None => "image/jpeg"
        end in
      if negb (startswith content_type "image/")
         && negb (startswith content_type "application/pdf")
      then Raise (ValueError ("Unsupported file type: " ++ content_type)%string)
      else Ok ("data:" ++ content_type ++ ";base64,"
               ++ b64encode (content response))%string
  end.

Definition _download_file_to_base64 (w : world) (url : string) : io string :=
  rep <~ get w url ;;
  match download_try rep with
  | Ok s => io_ret s
  | Raise (RequestException _) =>
      io_raise (HTTPException 400
                  (DetailDownloadFailed (py_slice_to 50 url) (get_error_text w url)))
  | Raise (ValueError msg) => io_raise (HTTPException 400 (Detail msg))
  | Raise e => io_raise e
  end.

(** ** Model client (lines 86-167) *)

(** [LLMExtractionOutput.model_json_schema()]: pydantic returns the JSON
    schema as a [dict] (shortened here; only its being a [dict] matters). *)
Definition LLMExtractionOutput_model_json_schema : pyval :=
  PDict [("properties",
          PDict [("pagewise_line_items", PDict [("type", PStr "array")]);
                 ("document_final_total", PDict [("type", PStr "number")])]);
         ("required",
          PList [PStr "pagewise_line_items"; PStr "document_final_total"]);
         ("title", PStr "LLMExtractionOutput");
         ("type", PStr "object")].

(** Lines 107-119.  The dict display evaluates
    [json.loads(LLMExtractionOutput.model_json_schema())]. *)
Definition build_payload (L : pylib) (mime_type base64_data : string)
  : result payload :=
  schema <- json_loads L LLMExtractionOutput_model_json_schema ;;
  Ok {| inline_mime_type := mime_type;
        inline_data := base64_data;
        response_schema := schema |}.

Definition max_retries : Z := 3.

(** [range(n)] *)
Definition py_range (n : Z) : list Z := map Z.of_nat (seq 0 (Z.to_nat n)).

(** Lines 126-151: the body of the [try], from the answer of
    [requests.post] on. *)
Definition attempt_try (L : pylib) (rep : reply) : result llm_output :=
  match rep with
  | Raises cls => Raise (RequestException cls)
  | Responds response =>
      raise_for_status response ;;;
      result <- response_json response ;;
      candidates <- py_getitem result "candidates" ;;
      candidate <- py_getitem0 candidates ;;
      content <- py_getitem candidate "content" ;;
      parts <- py_getitem content "parts" ;;
      part <- py_getitem0 parts ;;
      extracted_json_text <- py_getitem part "text" ;;
      extracted_data <- json_loads L extracted_json_text ;;
      usage_metadata <- py_get result "usageMetadata" (PDict []) ;;
      input_tokens <- py_get usage_metadata "promptTokenCount" (PInt 0) ;;
      output_tokens <- py_get usage_metadata "candidatesTokenCount" (PInt 0) ;;
      total <- py_add input_tokens output_tokens ;;
      Ok {| extracted_data := extracted_data;
            llm_token_usage := {| tu_input_tokens := input_tokens;
                                  tu_output_tokens := output_tokens;
                                  tu_total_tokens := total |} |}
  end.

(** Lines 161-162: the error raised for a failure that is not retried,
    [response] being the last response received. *)
Definition api_error (response : option Response) (cls : string)
  : result llm_output :=
  match response with
  | Some r =>
      body <- response_json r ;;
      error <- py_get body "error" (PDict []) ;;
      error_detail <- py_get error "message" (PStr "Unknown API Error") ;;
      Raise (HTTPException (status_code r) (DetailLLMApiError error_detail))
  | None => Raise (HTTPException 500 (DetailLLMApiErrorExc cls))
  end.

(** Line 154: the test that sends the loop into another turn. *)
Definition rate_limited (response : option Response) (attempt : Z) : bool :=
  match response with
  | Some r => (status_code r =? 429) && (attempt <? max_retries - 1)
  | None => false
  end.

(** Line 126: [response] is assigned when [requests.post] returns, and
    keeps its value when the call raises. *)
Definition assigned (rep : reply) (response : option Response) : option Response :=
  match rep with
  | Responds r => Some r
  | Raises _ => response
  end.

(** Lines 124-167: the loop over the attempts still to make, [response]
    being the variable of line 123. *)
Fixpoint retry_loop (L : pylib) (w : world) (body : payload)
  (attempts : list Z) (response : option Response) : io llm_output :=
  match attempts with
  | [] =>
      io_raise (HTTPException 503 (Detail "LLM API failed after multiple retries."))
  | attempt :: rest =>
      rep <~ post w body ;;
      let response := assigned rep response in
      match attempt_try L rep with
      | Ok out => io_ret out
      | Raise (RequestException cls) =>
          if rate_limited response attempt
          then _ <~ emit (SLEEP (2 ^ attempt)) ;; retry_loop L w body rest response
          else io_lift (api_error response cls)
      | Raise KeyError =>
          io_raise (HTTPException 500 (DetailInvalidStructure "KeyError"))
      | Raise IndexError =>
          io_raise (HTTPException 500 (DetailInvalidStructure "IndexError"))
      | Raise JSONDecodeError =>
          io_raise (HTTPException 500 (DetailInvalidStructure "JSONDecodeError"))
      | Raise AttributeError =>
          io_raise (HTTPException 500 (DetailInvalidStructure "AttributeError"))
      | Raise e => io_raise e
      end
  end.

(** Unpacking a list into two targets (line 94). *)
Definition unpack2 {A : Type} (l : list A) : result (A * A) :=
  match l with
  | [a; b] => Ok (a, b)
  | [] => Raise (ValueError "not enough values to unpack (expected 2, got 0)")
  | [_] => Raise (ValueError "not enough values to unpack (expected 2, got 1)")
  | _ => Raise (ValueError "too many values to unpack (expected 2)")
  end.

Definition extract_data_with_llm (L : pylib) (w : world) (document_url : string)
  : io llm_output :=
  if String.eqb (API_KEY w) ""
  then io_raise (HTTPException 500
         (Detail "API_KEY is missing in Render environment variables. Check Project Settings."))
  else
    base64_file_with_mime <~ _download_file_to_base64 w document_url ;;
    halves <~ io_lift (unpack2 (py_split1 "," base64_file_with_mime)) ;;
    let '(mime_type, base64_data) := halves in
    mime_type <~ io_lift (after_colon <- py_index (py_split ":" mime_type) 1 ;;
                          py_index (py_split ";" after_colon) 0) ;;
    body <~ io_lift (build_payload L mime_type base64_data) ;;
    retry_loop L w body (py_range max_retries) None.

(** ** The endpoint (lines 174-232) *)

Definition extract_bill_data (L : pylib) (w : world) (request : ExtractionRequest)
  : io ExtractionResponse :=
  fun t =>
    let document_url := document request in
    let '(r, t') :=
      (llm_output <~ extract_data_with_llm L w document_url ;;
       io_lift (process_llm_output L llm_output)) t in
    (map_exception r, t').

(** ** What the aggregation is checked against *)

(** The float sum of a list, taken from the left starting at [0.0]. *)
Definition float_sum (l : list float) : float := fold_left PrimFloat.add l 0%float.

(** The sum over the pages of the sum of the [item_amount]s of a page. *)
Definition sum_item_amounts (pages : list PagewiseLineItem) : float :=
  float_sum (map (fun page => float_sum (map item_amount (bill_items page))) pages).

(** The number of [BillItem]s on all pages. *)
Definition count_bill_items (pages : list PagewiseLineItem) : Z :=
  Z.of_nat (List.length (flat_map bill_items pages)).

(** [n] is the integer nearest to [num / den], the even one of the two
    when [num / den] lies halfway between them ([den > 0]). *)
Definition nearest_integer (num den n : Z) : Prop :=
  2 * Z.abs (num - n * den) <= den
  /\ (2 * Z.abs (num - n * den) = den -> Z.even n = true).

(** The binary64 nearest to [n / d] with the sign [s], for [0 <= n] and
    [0 < d]; a zero of that sign when [n] is 0. *)
Definition signed_quotient (s : bool) (n d : Z) : float :=
  match n, d with
  | Zpos p, Zpos q =>
      SF2Prim (SFdiv prec emax (S754_finite s p 0) (S754_finite false q 0))
  | _, _ => SF2Prim (S754_zero s)
  end.

(** [r] is [x] rounded to 2 decimal places.  A finite [x] other than zero
    is [m * 2^e] up to its sign; 100 times that is the fraction
    [m * 2^(max e 0) * 100 / 2^(max (-e) 0)], and [r] is the binary64 of
    [n / 100] for the integer [n] nearest to it.  Zeros, infinities and
    NaN are left as they are. *)
Definition rounded_to_2_places (x r : float) : Prop :=
  match Prim2SF x with
  | S754_finite s m e =>
      exists n : Z,
        0 <= n
        /\ nearest_integer (Zpos m * 2 ^ Z.max e 0 * 100) (2 ^ Z.max (- e) 0) n
        /\ r = signed_quotient s n 100
  | _ => r = x
  end.

(** The three page classifications the prompt names (line 102). *)
Definition page_type_names : list string := ["Bill Detail"; "Final Bill"; "Pharmacy"].

(** The [page_type] entries of the pages of a parsed model output. *)
Definition given_page_type (page : pyval) : option pyval :=
  match page with
  | PDict d => dict_lookup "page_type" d
  | _ => None
  end.

(** The dict with the value at the key [k] replaced by [v], where it has
    the key. *)
Fixpoint dict_set (k : string) (v : pyval) (d : list (string * pyval))
  : list (string * pyval) :=
  match d with
  | [] => []
  | (k', v') :: d' =>
      if String.eqb k k' then (k', v) :: d' else (k', v') :: dict_set k v d'
  end.

(** A page of a parsed model output with [s] for its [page_type], and the
    output with [s] for the [page_type] of every page. *)
Definition retype_page (s : string) (page : pyval) : pyval :=
  match page with
  | PDict d => PDict (dict_set "page_type" (PStr s) d)
  | _ => page
  end.

Definition retype_output (s : string) (v : pyval) : pyval :=
  match v with
  | PDict d =>
      match dict_lookup "pagewise_line_items" d with
      | Some (PList pages) =>
          PDict (dict_set "pagewise_line_items" (PList (map (retype_page s) pages)) d)
      | _ => v
      end
  | _ => v
  end.

(** A validated page with [s] for its [page_type], and a response with
    [s] for the [page_type] of every page and nothing else changed. *)
Definition set_page_type (s : string) (page : PagewiseLineItem) : PagewiseLineItem :=
  {| page_no := page_no page; page_type := s; bill_items := bill_items page |}.

Definition retype_response (s : string) (r : ExtractionResponse) : ExtractionResponse :=
  {| is_success := is_success r;
     token_usage := token_usage r;
     data := {| data_pagewise_line_items :=
                  map (set_page_type s) (data_pagewise_line_items (data r));
                final_total_extracted := final_total_extracted (data r);
                total_item_count := total_item_count (data r);
                sub_total_extracted := sub_total_extracted (data r) |} |}.

(** The pages and the items of a parsed model output, as far as it has the
    shape of lists inside dicts. *)
Definition given_pages (v : pyval) : list pyval :=
  match v with
  | PDict d =>
      match dict_lookup "pagewise_line_items" d with
      | Some (PList pages) => pages
      | _ => []
      end
  | _ => []
  end.

Definition given_items (page : pyval) : list pyval :=
  match page with
  | PDict d =>
      match dict_lookup "bill_items" d with
      | Some (PList items) => items
      | _ => []
      end
  | _ => []
  end.

(** ** A reference library and closed examples *)

Definition digit_value (c : ascii) : option Z :=
  let n := Z.of_N (N_of_ascii c) - 48 in
  if (0 <=? n) && (n <=? 9) then Some n else None.

Fixpoint digits_value (s : string) (acc : Z) : option Z :=
  match s with
  | EmptyString => Some acc
  | String c s' =>
      match digit_value c with
      | Some d => digits_value s' (10 * acc + d)
      | None => None
      end
  end.

(** Nonempty decimal digits. *)
Definition digits (s : string) : option Z :=
  match s with
  | EmptyString => None
  | _ => digits_value s 0
  end.

Definition is_space (c : ascii) : bool :=
  let n := N_of_ascii c in (((9 <=? n) && (n <=? 13)) || (n =? 32))%N.

Fixpoint lstrip (s : string) : string :=
  match s with
  | EmptyString => EmptyString
  | String c s' => if is_space c then lstrip s' else s
  end.

Fixpoint rstrip (s : string) : string :=
  match s with
  | EmptyString => EmptyString
  | String c s' =>
      match rstrip s' with
      | EmptyString => if is_space c then EmptyString else String c EmptyString
      | r => String c r
      end
  end.

(** [s.strip()], for the white space of ASCII. *)
Definition strip (s : string) : string := rstrip (lstrip s).

Definition lower_char (c : ascii) : ascii :=
  let n := N_of_ascii c in
  if ((65 <=? n) && (n <=? 90))%N then ascii_of_N (n + 32) else c.

Fixpoint lower (s : string) : string :=
  match s with
  | EmptyString => EmptyString
  | String c s' => String (lower_char c) (lower s')
  end.

(** A leading sign: whether it is a minus, and the rest. *)
Definition split_sign (s : string) : bool * string :=
  match s with
  | String c s' =>
      if Ascii.eqb c "-" then (true, s')
      else if Ascii.eqb c "+" then (false, s')
      else (false, s)
  | EmptyString => (false, s)
  end.

Fixpoint remove_char (c : ascii) (s : string) : string :=
  match s with
  | EmptyString => EmptyString
  | String a s' => if Ascii.eqb a c then remove_char c s' else String a (remove_char c s')
  end.

(** Whether underscores separate the characters of [s] one by one: none
    at either end and no two in a row. *)
Fixpoint separated (s : string) : bool :=
  match s with
  | EmptyString => true
  | String a s' =>
      if Ascii.eqb a "_" then
        match s' with
        | EmptyString => false
        | String b _ => negb (Ascii.eqb b "_") && separated s'
        end
      else separated s'
  end.

(** The text without its underscores, when it has some and they separate
    its characters. *)
Definition strip_underscores (s : string) : option string :=
  let stripped := remove_char "_" s in
  if negb (String.eqb stripped s) && negb (startswith s "_") && separated s
  then Some stripped else None.

(** Whether every character is the digit 0. *)
Fixpoint all_zeros (s : string) : bool :=
  match s with
  | EmptyString => true
  | String c s' => Ascii.eqb c "0" && all_zeros s'
  end.

(** An optional sign and decimal digits, with nothing around them. *)
Definition signed_digits (s : string) : option Z :=
  let '(neg, body) := split_sign s in
  match digits body with
  | Some n => Some (if neg then - n else n)
  | None => None
  end.

(** Text read as an integer, as an [int] field reads it in lax mode:
    white space around it is dropped, a sign may lead, a fraction of
    zeros only ([12.0], [12.]) is dropped, and underscores may separate
    the digits. *)
Definition ref_str_as_int (s : string) : option Z :=
  let s := strip s in
  let whole :=
    match py_split1 "." s with
    | [whole; frac] => if all_zeros frac then whole else s
    | _ => s
    end in
  match signed_digits whole with
  | Some n => Some n
  | None =>
      match strip_underscores whole with
      | Some stripped => signed_digits stripped
      | None => None
      end
  end.

(** The binary64 nearest to [n / d], for [0 <= n] and [0 < d]. *)
Definition nearest_float (n d : Z) : float :=
  match n, d with
  | Zpos p, Zpos q =>
      SF2Prim (SFdiv prec emax (S754_finite false p 0) (S754_finite false q 0))
  | _, _ => 0%float
  end.

(** The binary64 nearest to [n * 10 ^ k], for [0 <= n]. *)
Definition nearest_decimal (n k : Z) : float :=
  if 0 <=? k then nearest_float (n * 10 ^ k) 1 else nearest_float n (10 ^ (- k)).

(** A decimal number without sign: digits with an optional point, digits
    on one side of it at least, and an optional exponent. *)
Definition unsigned_number (s : string) : option float :=
  let parts := py_split1 "e" (lower s) in
  let exponent :=
    match parts with
    | [_] => Some 0
    | [_; e] => signed_digits e
    | _ => None
    end in
  let mantissa :=
    match parts with
    | mant :: _ =>
        match py_split1 "." mant with
        | [whole] =>
            match digits whole with
            | Some n => Some (n, 0)
            | None => None
            end
        | [whole; frac] =>
            match whole, frac with
            | EmptyString, EmptyString => None
            | _, _ =>
                match digits_value (whole ++ frac)%string 0 with
                | Some n => Some (n, Z.of_nat (String.length frac))
                | None => None
                end
            end
        | _ => None
        end
    | [] => None
    end in
  match mantissa, exponent with
  | Some (n, places), Some e => Some (nearest_decimal n (e - places))
  | _, _ => None
  end.

(** An optional sign before [inf], [infinity], [nan] (in any case) or a
    decimal number, with nothing around it. *)
Definition parse_float (s : string) : option float :=
  let '(neg, body) := split_sign s in
  let magnitude :=
    let name := lower body in
    if String.eqb name "inf" || String.eqb name "infinity" then Some infinity
    else if String.eqb name "nan" then Some nan
    else unsigned_number body in
  match magnitude with
  | Some x => Some (if neg then (- x)%float else x)
  | None => None
  end.

(** Text read as a float, as a [float] field reads it in lax mode: white
    space around it is dropped, and a number may have a sign, a
    fraction and an exponent ([12], [12.5], [-.5], [1e3], [2.5E-3]), or
    be [inf], [infinity] or [nan]; failing that, underscores may
    separate its characters. *)
Definition ref_str_as_float (s : string) : option float :=
  match parse_float (strip s) with
  | Some x => Some x
  | None =>
      match strip_underscores s with
      | Some stripped => parse_float stripped
      | None => None
      end
  end.

(** A JSON text written with ['] where the text has the double quote. *)
Fixpoint quoted (s : string) : string :=
  match s with
  | EmptyString => EmptyString
  | String c s' =>
      String (if Ascii.eqb c "'"%char then ascii_of_nat 34 else c) (quoted s')
  end.

Definition make_item (name : string) (amount rate quantity : pyval) : pyval :=
  PDict [("item_name", PStr name); ("item_amount", amount);
         ("item_rate", rate); ("item_quantity", quantity)].

Definition make_page (no ty : string) (items : list pyval) : pyval :=
  PDict [("page_no", PStr no); ("page_type", PStr ty); ("bill_items", PList items)].

Definition make_output (pages : list pyval) (total : pyval) : pyval :=
  PDict [("pagewise_line_items", PList pages); ("document_final_total", total)].

(** The two-page bill of the specification's example: amounts 100.00 and
    50.50 on page 1, 25.25 on page 2, and a reported total of 999.99. *)
Definition bill_text : string :=
  quoted "{'pagewise_line_items': [{'page_no': '1', 'page_type': 'Bill Detail', 'bill_items': [{'item_name': 'A', 'item_amount': 100.00, 'item_rate': 100.00, 'item_quantity': 1}, {'item_name': 'B', 'item_amount': 50.50, 'item_rate': 50.50, 'item_quantity': 1}]}, {'page_no': '2', 'page_type': 'Pharmacy', 'bill_items': [{'item_name': 'C', 'item_amount': 25.25, 'item_rate': 25.25, 'item_quantity': 1}]}], 'document_final_total': 999.99}".

Definition bill_value : pyval :=
  make_output
    [make_page "1" "Bill Detail"
       [make_item "A" (PFloat 100) (PFloat 100) (PInt 1);
        make_item "B" (PFloat 50.5) (PFloat 50.5) (PInt 1)];
     make_page "2" "Pharmacy"
       [make_item "C" (PFloat 25.25) (PFloat 25.25) (PInt 1)]]
    (PFloat 999.99).

(** [json.loads] on the one text the examples use. *)
Definition ref_json_decode (s : string) : option pyval :=
  if String.eqb s bill_text then Some bill_value else None.

Definition ref_lib : pylib :=
  {| json_decode := ref_json_decode;
     json_decode_error := fun _ => NotJSON;
     str_as_float := ref_str_as_float;
     str_as_int := ref_str_as_int |}.

(** A 200 answer of the model service carrying [text] and the given
    [usageMetadata]. *)
Definition model_answer_with (text : string) (usage : list (string * pyval))
  : Response :=
  {| status_code := 200;
     content_type_header := Some "application/json";
     content := "";
     json_body :=
       Some (PDict
         [("candidates",
           PList [PDict [("content",
                          PDict [("parts", PList [PDict [("text", PStr text)]])])]]);
          ("usageMetadata", PDict usage)]);
     json_error := NotJSON |}.

Definition model_answer (text : string) (prompt_count candidates_count : pyval)
  : Response :=
  model_answer_with text
    [("promptTokenCount", prompt_count); ("candidatesTokenCount", candidates_count)].

(** A 429 answer of the model service. *)
Definition rate_limit_answer : Response :=
  {| status_code := 429;
     content_type_header := Some "application/json";
     content := "";
     json_body :=
       Some (PDict [("error", PDict [("code", PInt 429);
                                     ("message", PStr "Resource has been exhausted")])]);
     json_error := NotJSON |}.

(** A document server answering 200 with the given [Content-Type]. *)
Definition document_answer (content_type : option string) : Response :=
  {| status_code := 200;
     content_type_header := content_type;
     content := "%PDF";
     json_body := None;
     json_error := NotJSON |}.

Definition bill_url : string := "https://bills.example/bill.pdf".

Definition bill_request : ExtractionRequest := {| document := bill_url |}.

(** The model service answers 429 twice, then 200. *)
Definition world_429_429_200 : world :=
  {| API_KEY := "secret";
     requests_get := fun _ => Responds (document_answer (Some "application/pdf"));
     get_error_text := fun _ => "";
     requests_post := fun k =>
       if Nat.ltb k 2 then Responds rate_limit_answer
       else Responds (model_answer bill_text (PInt 1200) (PInt 340)) |}.

(** The model service answers 429 every time. *)
Definition world_429_always : world :=
  {| API_KEY := "secret";
     requests_get := fun _ => Responds (document_answer (Some "application/pdf"));
     get_error_text := fun _ => "";
     requests_post := fun _ => Responds rate_limit_answer |}.

(** No API key is configured. *)
Definition world_no_key : world :=
  {| API_KEY := "";
     requests_get := fun _ => Responds (document_answer (Some "application/pdf"));
     get_error_text := fun _ => "";
     requests_post := fun _ => Responds (model_answer bill_text (PInt 1200) (PInt 340)) |}.

(** The document server declares the given [Content-Type]. *)
Definition world_content_type (content_type : option string) : world :=
  {| API_KEY := "secret";
     requests_get := fun _ => Responds (document_answer content_type);
     get_error_text := fun _ => "";
     requests_post := fun _ => Responds (model_answer bill_text (PInt 1200) (PInt 340)) |}.

(** A request body as lines 107-119 would build it for the example
    document, had the schema been at hand. *)
Definition bill_payload : payload :=
  {| inline_mime_type := "application/pdf";
     inline_data := "JVBERg==";
     response_schema := LLMExtractionOutput_model_json_schema |}.

(** What the client returns for the example bill. *)
Definition bill_llm_output (prompt_count candidates_count total : pyval) : llm_output :=
  {| extracted_data := bill_value;
     llm_token_usage := {| tu_input_tokens := prompt_count;
                           tu_output_tokens := candidates_count;
                           tu_total_tokens := total |} |}.

(** The response the endpoint builds for the example bill. *)
Definition bill_pages : list PagewiseLineItem :=
  [{| page_no := "1"; page_type := "Bill Detail";
      bill_items :=
        [{| item_name := "A"; item_amount := 100; item_rate := 100; item_quantity := 1 |};
         {| item_name := "B"; item_amount := 50.5; item_rate := 50.5; item_quantity := 1 |}] |};
   {| page_no := "2"; page_type := "Pharmacy";
      bill_items :=
        [{| item_name := "C"; item_amount := 25.25; item_rate := 25.25;
            item_quantity := 1 |}] |}].

Definition bill_response_with (total input output : Z) : ExtractionResponse :=
  {| is_success := true;
     token_usage := {| total_tokens := total; input_tokens := input;
                       output_tokens := output |};
     data := {| data_pagewise_line_items := bill_pages;
                final_total_extracted := 175.75;
                total_item_count := 3;
                sub_total_extracted := None |} |}.

Definition bill_response : ExtractionResponse := bill_response_with 1540 1200 340.

(** The data URL the fetcher returns for a document. *)
Definition data_url (content_type : string) (r : Response) : string :=
  ("data:" ++ content_type ++ ";base64," ++ b64encode (content r))%string.

(** The content types the fetcher lets through (line 69). *)
Definition supported_content_type (content_type : string) : bool :=
  startswith content_type "image/" || startswith content_type "application/pdf".

Definition api_key_missing : pyexn :=
  HTTPException 500
    (Detail "API_KEY is missing in Render environment variables. Check Project Settings.").

Definition unsupported_file_type (content_type : string) : pyexn :=
  HTTPException 400 (Detail ("Unsupported file type: " ++ content_type)%string).

(** ** What validation is checked against *)

Definition is_str (v : pyval) : bool :=
  match v with
  | PStr _ => true
  | _ => false
  end.

(** The values a [float] field takes: floats, bools, ints in the float
    range, and text the library reads as a number. *)
Definition numeric (L : pylib) (v : pyval) : bool :=
  match v with
  | PFloat _ => true
  | PBool _ => true
  | PInt n =>
      match int_to_float n with
      | Ok _ => true
      | Raise _ => false
      end
  | PStr s =>
      match str_as_float L s with
      | Some _ => true
      | None => false
      end
  | _ => false
  end.

(** An item of the model output that has the four fields, the name a
    string and the three numbers of a kind a [float] field takes. *)
Definition BillItem_acceptable (L : pylib) (item : pyval) : bool :=
  match item with
  | PDict d =>
      match dict_lookup "item_name" d, dict_lookup "item_amount" d,
            dict_lookup "item_rate" d, dict_lookup "item_quantity" d with
      | Some name, Some amount, Some rate, Some quantity =>
          is_str name && numeric L amount && numeric L rate && numeric L quantity
      | _, _, _, _ => false
      end
  | _ => false
  end.

(** A validator that fails only with [ValidationError]. *)
Definition only_validation_error {A : Type} (f : pyval -> result A) : Prop :=
  forall v e, f v = Raise e -> e = ValidationError.

(** The token count the reply's [usageMetadata] gives under [key], [0]
    when the metadata or the key is absent (lines 140-142). *)
Definition reported_count (body : pyval) (key : string) : result pyval :=
  usage_metadata <- py_get body "usageMetadata" (PDict []) ;;
  py_get usage_metadata key (PInt 0).

(** The integer a token count stands for when it is an [int] or a
    [bool]. *)
Definition count_value (v : pyval) : option Z :=
  match v with
  | PInt n => Some n
  | PBool b => Some (bool_to_Z b)
  | _ => None
  end.

(** The 500 the endpoint makes of an exception of class [cls]. *)
Definition uncaught (cls : string) : pyexn :=
  HTTPException 500
    (Detail ("UNCAUGHT SERVER ERROR: " ++ cls ++ ". Check Render logs.")%string).

(** A one-page output whose page is classified "Summary". *)
Definition summary_value : pyval :=
  make_output
    [make_page "1" "Summary" [make_item "A" (PFloat 100) (PFloat 100) (PInt 1)]]
    (PFloat 100).

(** A one-item output whose amount is the text 12.5, not a number. *)
Definition text_amount_value : pyval :=
  make_output
    [make_page "1" "Bill Detail" [make_item "A" (PStr "12.5") (PFloat 12.5) (PInt 1)]]
    (PFloat 12.5).

(** An item without [item_rate], on the second page of an output. *)
Definition item_without_rate : pyval :=
  PDict [("item_name", PStr "C"); ("item_amount", PFloat 25.25);
         ("item_quantity", PInt 1)].

Definition page_without_rate : pyval := make_page "2" "Pharmacy" [item_without_rate].

Definition missing_rate_value : pyval :=
  make_output
    [make_page "1" "Bill Detail" [make_item "A" (PFloat 100) (PFloat 100) (PInt 1)];
     page_without_rate]
    (PFloat 125.25).

Definition output_of (v : pyval) : llm_output :=
  {| extracted_data := v;
     llm_token_usage := {| tu_input_tokens := PInt 1200;
                           tu_output_tokens := PInt 340;
                           tu_total_tokens := PInt 1540 |} |}.

(** Whether a result is the 503 of line 167. *)
Definition is_retries_failed {A : Type} (r : result A) : bool :=
  match r with
  | Raise (HTTPException c (Detail text)) =>
      (c =? 503) && String.eqb text "LLM API failed after multiple retries."
  | _ => false
  end.

Definition is_http_exception (e : pyexn) : bool :=
  match e with
  | HTTPException _ _ => true
  | _ => false
  end.

(** The trace of three model calls with the two backoff sleeps between
    them. *)
Definition three_attempts (body : payload) : list event :=
  [POST body; SLEEP 1; POST body; SLEEP 2; POST body].

(** ** Further parts of the module and what they are checked against *)

(** Lines 94-95: the data URL taken apart again, into the MIME type and
    the base64 text. *)
Definition split_data_url (base64_file_with_mime : string) : result (string * string) :=
  halves <- unpack2 (py_split1 "," base64_file_with_mime) ;;
  let '(mime_type, base64_data) := halves in
  after_colon <- py_index (py_split ":" mime_type) 1 ;;
  mime_type <- py_index (py_split ";" after_colon) 0 ;;
  Ok (mime_type, base64_data).

(** Line 137: the generated text inside the reply's JSON,
    [result['candidates'][0]['content']['parts'][0]['text']]. *)
Definition generated_text (reply_json : pyval) : result pyval :=
  candidates <- py_getitem reply_json "candidates" ;;
  candidate <- py_getitem0 candidates ;;
  content <- py_getitem candidate "content" ;;
  parts <- py_getitem content "parts" ;;
  part <- py_getitem0 parts ;;
  py_getitem part "text".

(** Lines 137-138: the generated text, parsed. *)
Definition parsed_output (L : pylib) (reply_json : pyval) : result pyval :=
  extracted_json_text <- generated_text reply_json ;;
  json_loads L extracted_json_text.

(** Lines 163-165: the four classes caught there become a 500 about the
    structure of the reply, any other exception goes on as it is. *)
Definition structure_error (e : pyexn) : pyexn :=
  match e with
  | KeyError => HTTPException 500 (DetailInvalidStructure "KeyError")
  | IndexError => HTTPException 500 (DetailInvalidStructure "IndexError")
  | JSONDecodeError => HTTPException 500 (DetailInvalidStructure "JSONDecodeError")
  | AttributeError => HTTPException 500 (DetailInvalidStructure "AttributeError")
  | _ => e
  end.

(** Whether a call of the model service was answered with status 429. *)
Definition is_429 (rep : reply) : bool :=
  match rep with
  | Responds r => status_code r =? 429
  | Raises _ => false
  end.

(** Whether a character occurs in a string. *)
Fixpoint has_char (c : ascii) (s : string) : bool :=
  match s with
  | EmptyString => false
  | String c' s' => Ascii.eqb c' c || has_char c s'
  end.

(** How [requests.get] followed by [raise_for_status] fails, if it does:
    the class of the [RequestException]. *)
Definition get_failed (rep : reply) : option string :=
  match rep with
  | Raises cls => Some cls
  | Responds r =>
      if (400 <=? status_code r) && (status_code r <? 600) then Some "HTTPError"
      else None
  end.

(** The content type line 68 reads off a response. *)
Definition declared_content_type (r : Response) : string :=
  match content_type_header r with
  | Some ct => ct
  | None => "image/jpeg"
  end.

(** The values an [int] field takes. *)
Definition integral (L : pylib) (v : pyval) : bool :=
  match v with
  | PInt _ => true
  | PBool _ => true
  | PFloat x =>
      match float_integral x with
      | Some a => (- 2 ^ 63 <? a) && (a <? 2 ^ 63)
      | None => false
      end
  | PStr s =>
      match str_as_int L s with
      | Some _ => true
      | None => false
      end
  | _ => false
  end.

Definition is_dict (v : pyval) : bool :=
  match v with
  | PDict _ => true
  | _ => false
  end.

(** The [item_name] and [item_amount] of an item of the model output. *)
Definition given_item_name (item : pyval) : option pyval :=
  match item with
  | PDict d => dict_lookup "item_name" d
  | _ => None
  end.

Definition given_page_no (page : pyval) : option pyval :=
  match page with
  | PDict d => dict_lookup "page_no" d
  | _ => None
  end.

(** The trace of one model call, and of two with the first backoff sleep
    between them. *)
Definition one_attempt (body : payload) : list event := [POST body].

Definition two_attempts (body : payload) : list event :=
  [POST body; SLEEP 1; POST body].

(** A document server that cannot be reached. *)
Definition world_unreachable : world :=
  {| API_KEY := "secret";
     requests_get := fun _ => Raises "ConnectTimeout";
     get_error_text := fun url =>
       ("HTTPSConnectionPool(host='bills.example', port=443): Max retries "
        ++ "exceeded with url: /bill.pdf (Caused by ConnectTimeoutError("
        ++ "'Connection to bills.example timed out. (connect timeout=10)'))")%string;
     requests_post := fun _ => Responds (model_answer bill_text (PInt 1200) (PInt 340)) |}.

(** A model service that answers as [script] says, attempt by attempt, and
    cannot be reached after that. *)
Definition world_script (script : list reply) : world :=
  {| API_KEY := "secret";
     requests_get := fun _ => Responds (document_answer (Some "application/pdf"));
     get_error_text := fun _ => "";
     requests_post := fun k => nth k script (Raises "ConnectionError") |}.

(** A 403 answer of the model service. *)
Definition forbidden_answer : Response :=
  {| status_code := 403;
     content_type_header := Some "application/json";
     content := "";
     json_body :=
       Some (PDict [("error", PDict [("code", PInt 403);
                                     ("message", PStr "API key not valid")])]);
     json_error := NotJSON |}.

(** A 200 answer of the model service without candidates. *)
Definition no_candidates_answer : Response :=
  {| status_code := 200;
     content_type_header := Some "application/json";
     content := "";
     json_body := Some (PDict [("candidates", PList [])]);
     json_error := NotJSON |}.

(** A 200 answer with the bill and [usageMetadata] set to [null]. *)
Definition null_usage_answer : Response :=
  {| status_code := 200;
     content_type_header := Some "application/json";
     content := "";
     json_body :=
       Some (PDict
         [("candidates",
           PList [PDict [("content",
                          PDict [("parts", PList [PDict [("text", PStr bill_text)]])])]]);
          ("usageMetadata", PNone)]);
     json_error := NotJSON |}.

Definition given_item_amount (item : pyval) : option pyval :=
  match item with
  | PDict d => dict_lookup "item_amount" d
  | _ => None
  end.

(** Whether the parsed model output has a [document_final_total] that a
    [float] field takes. *)
Definition reported_total_ok (L : pylib) (d : list (string * pyval)) : bool :=
  match dict_lookup "document_final_total" d with
  | Some v => numeric L v
  | None => false
  end.

(** Whether the three token counts are values an [int] field takes. *)
Definition counts_integral (L : pylib) (c : token_usage_counts) : bool :=
  integral L (tu_total_tokens c) && integral L (tu_input_tokens c)
  && integral L (tu_output_tokens c).

(** The example bill without its reported total. *)
Definition no_total_value : pyval :=
  PDict [("pagewise_line_items",
          PList [make_page "1" "Bill Detail"
                   [make_item "A" (PFloat 100) (PFloat 100) (PInt 1)]])].

(** A bill of two pages whose amounts, 10.004 and 20.004, have three
    decimals: the sum rounds to 30.01, the page sums to 10.0 and 20.0. *)
Definition fine_print_value : pyval :=
  make_output
    [make_page "1" "Bill Detail"
       [make_item "A" (PFloat 10.004) (PFloat 10.004) (PInt 1)];
     make_page "2" "Pharmacy"
       [make_item "B" (PFloat 20.004) (PFloat 20.004) (PInt 1)]]
    (PFloat 30).

Definition fine_print_response : ExtractionResponse :=
  {| is_success := true;
     token_usage := {| total_tokens := 1540; input_tokens := 1200; output_tokens := 340 |};
     data := {| data_pagewise_line_items :=
                  [{| page_no := "1"; page_type := "Bill Detail";
                      bill_items :=
                        [{| item_name := "A"; item_amount := 10.004;
                            item_rate := 10.004; item_quantity := 1 |}] |};
                   {| page_no := "2"; page_type := "Pharmacy";
                      bill_items :=
                        [{| item_name := "B"; item_amount := 20.004;
                            item_rate := 20.004; item_quantity := 1 |}] |}];
                final_total_extracted := 30.01;
                total_item_count := 2;
                sub_total_extracted := None |} |}.

(** A bill whose one page lists nothing. *)
Definition empty_page_value : pyval :=
  make_output [make_page "1" "Final Bill" []] (PFloat 0).

Definition empty_page_response : ExtractionResponse :=
  {| is_success := true;
     token_usage := {| total_tokens := 1540; input_tokens := 1200; output_tokens := 340 |};
     data := {| data_pagewise_line_items :=
                  [{| page_no := "1"; page_type := "Final Bill"; bill_items := [] |}];
                final_total_extracted := 0;
                total_item_count := 0;
                sub_total_extracted := None |} |}.

(** A 401 answer of the model service whose body is not JSON. *)
Definition html_error_answer : Response :=
  {| status_code := 401;
     content_type_header := Some "text/html";
     content := "<html>Unauthorized</html>";
     json_body := None;
     json_error := NotJSON |}.

(** A 200 answer with the bill and no [usageMetadata] at all. *)
Definition no_usage_answer : Response :=
  {| status_code := 200;
     content_type_header := Some "application/json";
     content := "";
     json_body :=
       Some (PDict
         [("candidates",
           PList [PDict [("content",
                          PDict [("parts", PList [PDict [("text", PStr bill_text)]])])]])]);
     json_error := NotJSON |}.

(** * Properties *)

(** ** The result monad *)

Lemma bind_ok_inv {A B : Type} (c : result A) (k : A -> result B) (b : B) :
  bind c k = Ok b -> exists a, c = Ok a /\ k a = Ok b.
Proof.
  destruct c as [a | e]; simpl; intros H.
  - exists a. split; [reflexivity | exact H].
  - discriminate H.
Qed.

Ltac bind_inv H :=
  let a := fresh "a" in
  let Ha := fresh "Ha" in
  apply bind_ok_inv in H; destruct H as (a & Ha & H).

(** ** Aggregation *)

Lemma fold_item_step (items : list BillItem) (page_sum : float) (count : Z) :
  fold_left item_step items (page_sum, count)
  = (fold_left PrimFloat.add (map item_amount items) page_sum,
     count + Z.of_nat (List.length items)).
Proof.
  revert page_sum count.
  induction items as [| item items IH]; intros page_sum count.
  - simpl. f_equal. lia.
  - cbn [fold_left map List.length item_step]. rewrite IH. f_equal. lia.
Qed.

Lemma fold_page_step (pages : list PagewiseLineItem) (total : float) (count : Z)
  (output : list PagewiseLineItem) :
  fold_left page_step pages (total, count, output)
  = (fold_left PrimFloat.add
       (map (fun page => float_sum (map item_amount (bill_items page))) pages) total,
     count + count_bill_items pages,
     output ++ pages).
Proof.
  revert total count output.
  induction pages as [| page pages IH]; intros total count output.
  - unfold count_bill_items. simpl. rewrite app_nil_r. do 2 f_equal. lia.
  - cbn [fold_left map]. unfold page_step at 2. rewrite fold_item_step.
    rewrite IH. unfold count_bill_items, float_sum. cbn [flat_map].
    rewrite length_app, <- app_assoc. simpl.
    do 2 f_equal. lia.
Qed.

(** The loops compute the sum of the page sums, the number of items and
    the page list itself. *)
Lemma aggregate_spec (pages : list PagewiseLineItem) :
  aggregate pages = (sum_item_amounts pages, count_bill_items pages, pages).
Proof.
  unfold aggregate. rewrite fold_page_step. reflexivity.
Qed.

(** A success of lines 186-219 determines the response. *)
Lemma process_llm_output_ok (L : pylib) (out : llm_output) (r : ExtractionResponse) :
  process_llm_output L out = Ok r ->
  exists extracted usage,
    LLMExtractionOutput_init L (extracted_data out) = Ok extracted
    /\ TokenUsage_init L (llm_token_usage out) = Ok usage
    /\ r = {| is_success := true;
              token_usage := usage;
              data := {| data_pagewise_line_items := pagewise_line_items extracted;
                         final_total_extracted :=
                           py_round2 (sum_item_amounts (pagewise_line_items extracted));
                         total_item_count :=
                           count_bill_items (pagewise_line_items extracted);
                         sub_total_extracted := None |} |}.
Proof.
  unfold process_llm_output. intros H. bind_inv H.
  unfold build_response in H. rewrite aggregate_spec in H. bind_inv H.
  exists a, a0. repeat split; try assumption. congruence.
Qed.

(** Validation is all that stands between the client's result and a
    response: once the output and the token counts validate, lines 186-219
    return. *)
Lemma process_llm_output_validated (L : pylib) (out : llm_output)
  (extracted : LLMExtractionOutput) (usage : TokenUsage) :
  LLMExtractionOutput_init L (extracted_data out) = Ok extracted ->
  TokenUsage_init L (llm_token_usage out) = Ok usage ->
  process_llm_output L out
  = Ok {| is_success := true;
          token_usage := usage;
          data := {| data_pagewise_line_items := pagewise_line_items extracted;
                     final_total_extracted :=
                       py_round2 (sum_item_amounts (pagewise_line_items extracted));
                     total_item_count :=
                       count_bill_items (pagewise_line_items extracted);
                     sub_total_extracted := None |} |}.
Proof.
  intros He Hu. unfold process_llm_output. rewrite He. simpl.
  unfold build_response. rewrite aggregate_spec, Hu. reflexivity.
Qed.

(** ** Rounding to two decimal places *)

Lemma round_half_even_nearest (num den : Z) :
  0 < den -> nearest_integer num den (round_half_even num den).
Proof.
  intros Hden. unfold nearest_integer, round_half_even.
  pose proof (Z.div_mod num den ltac:(lia)) as Hdm.
  pose proof (Z.mod_pos_bound num den Hden) as Hr.
  set (q := num / den) in *. set (r := num mod den) in *.
  assert (forall n, num - n * den = r + (q - n) * den) as Hdiff by (intros n; lia).
  destruct (Z.compare_spec (2 * r) den) as [Heq | Hlt | Hgt].
  - assert (forall n, n = q \/ n = q + 1 -> 2 * Z.abs (num - n * den) = den) as Htie.
    { intros n [-> | ->]; rewrite Hdiff.
      - replace (r + (q - q) * den) with r by lia. lia.
      - replace (r + (q - (q + 1)) * den) with (r - den) by lia. lia. }
    destruct (Z.even q) eqn:Hq.
    + split; [rewrite Htie; [lia | left; reflexivity] | intros _; exact Hq].
    + split; [rewrite Htie; [lia | right; reflexivity] |].
      intros _. replace (q + 1) with (Z.succ q) by lia.
      rewrite Z.even_succ, <- Z.negb_even, Hq. reflexivity.
  - rewrite Hdiff. replace (r + (q - q) * den) with r by lia. split; lia.
  - rewrite Hdiff. replace (r + (q - (q + 1)) * den) with (r - den) by lia.
    split; lia.
Qed.

Lemma round_half_even_nonneg (num den : Z) :
  0 <= num -> 0 < den -> 0 <= round_half_even num den.
Proof.
  intros Hnum Hden. unfold round_half_even.
  pose proof (Z.div_pos num den Hnum Hden) as Hq.
  destruct (2 * (num mod den) ?= den); [destruct (Z.even (num / den)) | |]; lia.
Qed.

(** The nearest integer, with halves to the even one, is unique. *)
Lemma nearest_integer_unique (num den n1 n2 : Z) :
  0 < den ->
  nearest_integer num den n1 -> nearest_integer num den n2 -> n1 = n2.
Proof.
  intros Hden [H1 E1] [H2 E2].
  assert (n1 = n2 \/ n1 = n2 + 1 \/ n2 = n1 + 1) as [H | [H | H]] by nia;
    [exact H | exfalso | exfalso].
  - assert (2 * Z.abs (num - n1 * den) = den) as T1 by nia.
    assert (2 * Z.abs (num - n2 * den) = den) as T2 by nia.
    specialize (E1 T1). specialize (E2 T2). subst n1.
    replace (n2 + 1) with (Z.succ n2) in E1 by lia.
    rewrite Z.even_succ, <- Z.negb_even, E2 in E1. discriminate E1.
  - assert (2 * Z.abs (num - n1 * den) = den) as T1 by nia.
    assert (2 * Z.abs (num - n2 * den) = den) as T2 by nia.
    specialize (E1 T1). specialize (E2 T2). subst n2.
    replace (n1 + 1) with (Z.succ n1) in E2 by lia.
    rewrite Z.even_succ, <- Z.negb_even, E1 in E2. discriminate E2.
Qed.

(** [round(x, 2)] rounds to 2 decimal places. *)
Lemma py_round2_rounded (x : float) : rounded_to_2_places x (py_round2 x).
Proof.
  unfold rounded_to_2_places, py_round2.
  destruct (Prim2SF x) as [s | s | | s m e]; try reflexivity.
  destruct (Z.leb_spec 0 e) as [He | He].
  - exists (Zpos m * 2 ^ e * 100).
    assert (0 < 2 ^ e) as Hp by (apply Z.pow_pos_nonneg; lia).
    rewrite (Z.max_l e 0) by lia. rewrite (Z.max_r (- e) 0) by lia.
    split; [nia |]. split.
    + unfold nearest_integer. change (2 ^ 0) with 1.
      replace (Zpos m * 2 ^ e * 100 - Zpos m * 2 ^ e * 100 * 1) with 0 by lia.
      simpl. split; [lia | intros H; discriminate H].
    + destruct (Zpos m * 2 ^ e * 100); reflexivity.
  - exists (round_half_even (Zpos m * 100) (2 ^ (- e))).
    assert (0 < 2 ^ (- e)) as Hp by (apply Z.pow_pos_nonneg; lia).
    rewrite (Z.max_r e 0) by lia. rewrite (Z.max_l (- e) 0) by lia.
    change (2 ^ 0) with 1. rewrite Z.mul_1_r.
    split; [apply round_half_even_nonneg; lia |]. split.
    + apply round_half_even_nearest, Hp.
    + destruct (round_half_even (Zpos m * 100) (2 ^ (- e))); reflexivity.
Qed.

(** Rounding to 2 decimal places has one result. *)
Lemma rounded_to_2_places_unique (x r1 r2 : float) :
  rounded_to_2_places x r1 -> rounded_to_2_places x r2 -> r1 = r2.
Proof.
  unfold rounded_to_2_places.
  destruct (Prim2SF x) as [s | s | | s m e]; try congruence.
  intros (n1 & _ & N1 & ->) (n2 & _ & N2 & ->).
  assert (0 < 2 ^ Z.max (- e) 0) as Hden by (apply Z.pow_pos_nonneg; lia).
  rewrite (nearest_integer_unique _ _ n1 n2 Hden N1 N2). reflexivity.
Qed.

(** Halves go to the even hundredth where the float is the half exactly
    (0.125, 0.375); 2.675 and 1.005, as floats, lie below the half. *)
Lemma py_round2_examples :
  py_round2 30.008 = 30.01%float
  /\ py_round2 0.125 = 0.12%float
  /\ py_round2 0.375 = 0.38%float
  /\ py_round2 2.675 = 2.67%float
  /\ py_round2 1.005 = 1%float
  /\ py_round2 175.75 = 175.75%float
  /\ py_round2 (-0.001) = (-0)%float
  /\ py_round2 infinity = infinity.
Proof.
  vm_compute. repeat split.
Qed.

(** C1. For every model output that validates, the success response's
    [final_total_extracted] is the sum of the [item_amount]s of all items
    of all pages, rounded to 2 decimal places (to the nearest hundredth,
    a half to the even one) once, at the end; the page sums are not
    rounded, and the reported [document_final_total] plays no part: any
    other reported total gives the same response. *)
Theorem final_total_extracted_is_rounded_sum
  (L : pylib) (out : llm_output) (r : ExtractionResponse) :
  process_llm_output L out = Ok r ->
  exists extracted,
    LLMExtractionOutput_init L (extracted_data out) = Ok extracted
    /\ final_total_extracted (data r)
       = py_round2 (sum_item_amounts (pagewise_line_items extracted))
    /\ rounded_to_2_places (sum_item_amounts (pagewise_line_items extracted))
         (final_total_extracted (data r))
    /\ (forall total : float,
          rounded_to_2_places (sum_item_amounts (pagewise_line_items extracted)) total ->
          total = final_total_extracted (data r))
    /\ forall reported : float,
         build_response L
           {| pagewise_line_items := pagewise_line_items extracted;
              document_final_total := reported |}
           (llm_token_usage out)
         = Ok r.
Proof.
  intros H. destruct (process_llm_output_ok L out r H) as (e & u & He & Hu & ->).
  exists e. split; [exact He |]. split; [reflexivity |].
  split; [apply py_round2_rounded |]. split.
  - intros total Ht. apply (rounded_to_2_places_unique _ _ _ Ht), py_round2_rounded.
  - intros reported. unfold build_response. rewrite aggregate_spec. simpl.
    rewrite Hu. reflexivity.
Qed.

Lemma final_total_extracted_is_rounded_sum_witness :
  process_llm_output ref_lib (output_of fine_print_value) = Ok fine_print_response
  /\ final_total_extracted (data fine_print_response) = 30.01%float
  /\ (py_round2 10.004 + py_round2 20.004)%float = 30%float
  /\ exists extracted,
       LLMExtractionOutput_init ref_lib fine_print_value = Ok extracted
       /\ final_total_extracted (data fine_print_response)
          = py_round2 (sum_item_amounts (pagewise_line_items extracted))
       /\ rounded_to_2_places (sum_item_amounts (pagewise_line_items extracted))
            (final_total_extracted (data fine_print_response))
       /\ (forall total : float,
             rounded_to_2_places (sum_item_amounts (pagewise_line_items extracted)) total ->
             total = final_total_extracted (data fine_print_response))
       /\ forall reported : float,
            build_response ref_lib
              {| pagewise_line_items := pagewise_line_items extracted;
                 document_final_total := reported |}
              {| tu_input_tokens := PInt 1200; tu_output_tokens := PInt 340;
                 tu_total_tokens := PInt 1540 |}
            = Ok fine_print_response.
Proof.
  split; [vm_compute; reflexivity |].
  split; [reflexivity |].
  split; [vm_compute; reflexivity |].
  apply (final_total_extracted_is_rounded_sum ref_lib
           (output_of fine_print_value) fine_print_response).
  vm_compute. reflexivity.
Defined.

(** C6. For every model output that validates, the success response's
    [total_item_count] is the number of [BillItem]s on all pages. *)
Theorem total_item_count_is_number_of_items
  (L : pylib) (out : llm_output) (r : ExtractionResponse) :
  process_llm_output L out = Ok r ->
  exists extracted,
    LLMExtractionOutput_init L (extracted_data out) = Ok extracted
    /\ data_pagewise_line_items (data r) = pagewise_line_items extracted
    /\ total_item_count (data r)
       = Z.of_nat (List.length (flat_map bill_items (data_pagewise_line_items (data r)))).
Proof.
  intros H. destruct (process_llm_output_ok L out r H) as (e & u & He & Hu & ->).
  exists e. repeat split; assumption.
Qed.

Lemma total_item_count_is_number_of_items_witness :
  total_item_count (data bill_response) = 3
  /\ exists extracted,
       LLMExtractionOutput_init ref_lib bill_value = Ok extracted
       /\ data_pagewise_line_items (data bill_response) = pagewise_line_items extracted
       /\ total_item_count (data bill_response)
          = Z.of_nat (List.length
                        (flat_map bill_items (data_pagewise_line_items (data bill_response)))).
Proof.
  split.
  - reflexivity.
  - apply (total_item_count_is_number_of_items ref_lib
             (bill_llm_output (PInt 1200) (PInt 340) (PInt 1540)) bill_response).
    vm_compute. reflexivity.
Defined.

(** ** Document fetcher and credential check *)

(** The fetcher on a document server that answers without an error
    status: the declared type decides. *)
Lemma download_responds (w : world) (url : string) (t : list event) (r : Response) :
  requests_get w url = Responds r ->
  raise_for_status r = Ok tt ->
  _download_file_to_base64 w url t
  = (let content_type :=
       match content_type_header r with
       | Some ct => ct
       | None => "image/jpeg"
       end in
     if supported_content_type content_type
     then Ok (data_url content_type r)
     else Raise (unsupported_file_type content_type),
     t ++ [GET url]).
Proof.
  intros Hget Hstatus.
  unfold _download_file_to_base64, io_bind, get, download_try.
  rewrite Hget, Hstatus. cbn [bind].
  unfold supported_content_type, data_url, unsupported_file_type.
  destruct (content_type_header r) as [ct |];
    destruct (startswith _ "image/"); destruct (startswith _ "application/pdf");
    reflexivity.
Qed.

(** An [HTTPException] of the client passes through the endpoint with its
    trace. *)
Lemma extract_bill_data_http (L : pylib) (w : world) (request : ExtractionRequest)
  (t t' : list event) (c : Z) (d : detail) :
  extract_data_with_llm L w (document request) t = (Raise (HTTPException c d), t') ->
  extract_bill_data L w request t = (Raise (HTTPException c d), t').
Proof.
  intros H. unfold extract_bill_data, io_bind. rewrite H. reflexivity.
Qed.

(** C7. With no API key configured every request fails at once with the
    500 of the missing credential, and nothing was fetched or posted: the
    trace of network events is left as it was. *)
Theorem missing_api_key_short_circuits
  (L : pylib) (w : world) (request : ExtractionRequest) (t : list event) :
  API_KEY w = "" ->
  extract_bill_data L w request t = (Raise api_key_missing, t).
Proof.
  intros Hkey. apply extract_bill_data_http.
  unfold extract_data_with_llm. rewrite Hkey. reflexivity.
Qed.

Lemma missing_api_key_short_circuits_witness :
  extract_bill_data ref_lib world_no_key bill_request [] = (Raise api_key_missing, []).
Proof.
  apply (missing_api_key_short_circuits ref_lib world_no_key bill_request []).
  reflexivity.
Defined.

(** C8, as the code has it. A downloaded document whose declared content
    type begins with "image/" or begins with "application/pdf" is
    accepted; for any other declared type the fetcher raises the 400 of
    the unsupported file type, and the request ends with it having made
    the GET and no model call. *)
Theorem content_type_gate
  (L : pylib) (w : world) (request : ExtractionRequest) (t : list event)
  (r : Response) (content_type : string) :
  API_KEY w <> "" ->
  requests_get w (document request) = Responds r ->
  raise_for_status r = Ok tt ->
  content_type_header r = Some content_type ->
  if startswith content_type "image/" || startswith content_type "application/pdf"
  then _download_file_to_base64 w (document request) t
       = (Ok (data_url content_type r), t ++ [GET (document request)])
  else _download_file_to_base64 w (document request) t
       = (Raise (unsupported_file_type content_type), t ++ [GET (document request)])
       /\ extract_bill_data L w request t
          = (Raise (unsupported_file_type content_type), t ++ [GET (document request)]).
Proof.
  intros Hkey Hget Hstatus Hct.
  pose proof (download_responds w (document request) t r Hget Hstatus) as Hd.
  rewrite Hct in Hd. cbv zeta in Hd. unfold supported_content_type in Hd.
  destruct (startswith content_type "image/" || startswith content_type "application/pdf").
  - exact Hd.
  - split; [exact Hd |].
    apply extract_bill_data_http. unfold extract_data_with_llm.
    destruct (String.eqb_spec (API_KEY w) "") as [E | _]; [contradiction |].
    unfold io_bind. rewrite Hd. reflexivity.
Qed.

Lemma content_type_gate_witness :
  _download_file_to_base64 (world_content_type (Some "text/html")) bill_url []
  = (Raise (unsupported_file_type "text/html"), [GET bill_url])
  /\ extract_bill_data ref_lib (world_content_type (Some "text/html")) bill_request []
     = (Raise (unsupported_file_type "text/html"), [GET bill_url]).
Proof.
  apply (content_type_gate ref_lib (world_content_type (Some "text/html")) bill_request []
           (document_answer (Some "text/html")) "text/html").
  - discriminate.
  - reflexivity.
  - reflexivity.
  - reflexivity.
Defined.

(** C8 as stated fails: a declared type that only begins with
    "application/pdf" is neither an image type nor exactly
    "application/pdf", and the fetcher accepts it. *)
Lemma content_type_pdf_prefix_accepted :
  startswith "application/pdf; charset=binary" "image/" = false
  /\ "application/pdf; charset=binary" <> "application/pdf"
  /\ _download_file_to_base64
       (world_content_type (Some "application/pdf; charset=binary")) bill_url []
     = (Ok "data:application/pdf; charset=binary;base64,JVBERg==", [GET bill_url])
  /\ startswith "application/pdfx" "image/" = false
  /\ "application/pdfx" <> "application/pdf"
  /\ _download_file_to_base64 (world_content_type (Some "application/pdfx")) bill_url []
     = (Ok "data:application/pdfx;base64,JVBERg==", [GET bill_url]).
Proof.
  repeat split; try reflexivity; discriminate.
Qed.

(** C10. A document answered without a [Content-Type] header is taken to
    be "image/jpeg" and accepted. *)
Theorem missing_content_type_is_jpeg
  (w : world) (url : string) (t : list event) (r : Response) :
  requests_get w url = Responds r ->
  raise_for_status r = Ok tt ->
  content_type_header r = None ->
  _download_file_to_base64 w url t = (Ok (data_url "image/jpeg" r), t ++ [GET url]).
Proof.
  intros Hget Hstatus Hct.
  rewrite (download_responds w url t r Hget Hstatus), Hct. reflexivity.
Qed.

Lemma missing_content_type_is_jpeg_witness :
  _download_file_to_base64 (world_content_type None) bill_url []
  = (Ok "data:image/jpeg;base64,JVBERg==", [GET bill_url]).
Proof.
  apply (missing_content_type_is_jpeg (world_content_type None) bill_url []
           (document_answer None)); reflexivity.
Defined.

(** ** Validation *)

Lemma validated_raise {A : Type} (o : option A) (e : pyexn) :
  validated o = Raise e -> e = ValidationError.
Proof. destruct o; simpl; congruence. Qed.

Lemma validate_str_raise : only_validation_error validate_str.
Proof. intros [] e; simpl; congruence. Qed.

Lemma validate_float_raise (L : pylib) : only_validation_error (validate_float L).
Proof.
  intros [] e; simpl; try congruence.
  - destruct (int_to_float n); congruence.
  - apply validated_raise.
Qed.

Lemma bind_raise {A B : Type} (c : result A) (k : A -> result B) (e : pyexn) :
  bind c k = Raise e -> c = Raise e \/ exists a, c = Ok a /\ k a = Raise e.
Proof.
  destruct c as [a | e']; simpl; intros H.
  - right. exists a. split; [reflexivity | exact H].
  - left. congruence.
Qed.

Lemma required_raise {A : Type} (f : pyval -> result A) (d : list (string * pyval))
  (k : string) (e : pyexn) :
  only_validation_error f -> required f d k = Raise e -> e = ValidationError.
Proof.
  intros Hf. unfold required. destruct (dict_lookup k d) as [v |].
  - apply Hf.
  - congruence.
Qed.

Lemma validate_each_raise {A : Type} (f : pyval -> result A) :
  only_validation_error f ->
  forall l e, validate_each f l = Raise e -> e = ValidationError.
Proof.
  intros Hf l. induction l as [| v l IH]; intros e; simpl.
  - congruence.
  - intros H. apply bind_raise in H. destruct H as [H | (a & _ & H)].
    + exact (Hf v e H).
    + apply bind_raise in H. destruct H as [H | (r & _ & H)].
      * exact (IH e H).
      * discriminate H.
Qed.

Lemma validate_list_raise {A : Type} (f : pyval -> result A) :
  only_validation_error f -> only_validation_error (validate_list f).
Proof.
  intros Hf [] e; simpl; try congruence. apply validate_each_raise. exact Hf.
Qed.

Ltac raise_cases H :=
  repeat (apply bind_raise in H;
          destruct H as [H | (? & _ & H)];
          [eapply required_raise; [| exact H] |]);
  try discriminate H.

Lemma validate_BillItem_raise (L : pylib) : only_validation_error (validate_BillItem L).
Proof.
  intros [] e; simpl; try congruence. intros H. raise_cases H;
    first [apply validate_str_raise | apply validate_float_raise].
Qed.

Lemma validate_PagewiseLineItem_raise (L : pylib) :
  only_validation_error (validate_PagewiseLineItem L).
Proof.
  intros [] e; simpl; try congruence. intros H. raise_cases H;
    first [apply validate_str_raise
          | apply validate_list_raise, validate_BillItem_raise].
Qed.

(** One element that fails makes the list fail. *)
Lemma validate_each_bad {A : Type} (f : pyval -> result A) (l : list pyval) (v : pyval) :
  only_validation_error f ->
  In v l -> f v = Raise ValidationError ->
  validate_each f l = Raise ValidationError.
Proof.
  intros Hf Hin Hv. induction l as [| x l IH]; [destruct Hin |].
  simpl. destruct (f x) as [a |e] eqn:Hx; simpl.
  - destruct Hin as [-> | Hin]; [congruence |].
    rewrite (IH Hin). reflexivity.
  - rewrite (Hf x e Hx). reflexivity.
Qed.

(** The elements of a list that validates, next to their values. *)
Lemma validate_each_ok {A : Type} (f : pyval -> result A) (l : list pyval) (r : list A) :
  validate_each f l = Ok r -> Forall2 (fun v a => f v = Ok a) l r.
Proof.
  revert r. induction l as [| v l IH]; intros r; simpl.
  - intros H. injection H as <-. constructor.
  - intros H. bind_inv H. bind_inv H. injection H as <-.
    constructor; [assumption | apply IH; assumption].
Qed.

Lemma required_ok {A : Type} (f : pyval -> result A) (d : list (string * pyval))
  (k : string) (a : A) :
  required f d k = Ok a -> exists v, dict_lookup k d = Some v /\ f v = Ok a.
Proof.
  unfold required. destruct (dict_lookup k d) as [v |]; [| discriminate].
  intros H. exists v. split; [reflexivity | exact H].
Qed.

Lemma validate_list_ok {A : Type} (f : pyval -> result A) (v : pyval) (r : list A) :
  validate_list f v = Ok r -> exists l, v = PList l /\ validate_each f l = Ok r.
Proof.
  destruct v; simpl; try discriminate. intros H. exists l. split; [reflexivity | exact H].
Qed.

Lemma numeric_false (L : pylib) (v : pyval) :
  numeric L v = false -> validate_float L v = Raise ValidationError.
Proof.
  destruct v; simpl; try congruence.
  - destruct (int_to_float n); congruence.
  - destruct (str_as_float L s); simpl; congruence.
Qed.

Lemma is_str_false (v : pyval) :
  is_str v = false -> validate_str v = Raise ValidationError.
Proof. destruct v; simpl; congruence. Qed.

(** An item that is not acceptable does not validate. *)
Lemma validate_BillItem_unacceptable (L : pylib) (item : pyval) :
  BillItem_acceptable L item = false ->
  validate_BillItem L item = Raise ValidationError.
Proof.
  intros H.
  destruct (validate_BillItem L item) as [b | e] eqn:Hv.
  - exfalso. destruct item; simpl in Hv; try discriminate Hv.
    unfold BillItem_acceptable in H.
    bind_inv Hv. bind_inv Hv. bind_inv Hv. bind_inv Hv.
    apply required_ok in Ha, Ha0, Ha1, Ha2.
    destruct Ha as (v1 & E1 & V1), Ha0 as (v2 & E2 & V2),
             Ha1 as (v3 & E3 & V3), Ha2 as (v4 & E4 & V4).
    rewrite E1, E2, E3, E4 in H.
    destruct (is_str v1) eqn:S1;
      [| rewrite (is_str_false v1 S1) in V1; discriminate V1].
    destruct (numeric L v2) eqn:N2;
      [| rewrite (numeric_false L v2 N2) in V2; discriminate V2].
    destruct (numeric L v3) eqn:N3;
      [| rewrite (numeric_false L v3 N3) in V3; discriminate V3].
    destruct (numeric L v4) eqn:N4;
      [| rewrite (numeric_false L v4 N4) in V4; discriminate V4].
    discriminate H.
  - rewrite (validate_BillItem_raise L item e Hv). reflexivity.
Qed.

(** An item that is acceptable validates. *)
Lemma validate_BillItem_acceptable (L : pylib) (item : pyval) :
  BillItem_acceptable L item = true ->
  exists b, validate_BillItem L item = Ok b.
Proof.
  destruct item; simpl; try discriminate.
  unfold required.
  destruct (dict_lookup "item_name" d) as [v1 |]; [| discriminate].
  destruct (dict_lookup "item_amount" d) as [v2 |]; [| discriminate].
  destruct (dict_lookup "item_rate" d) as [v3 |]; [| discriminate].
  destruct (dict_lookup "item_quantity" d) as [v4 |]; [| discriminate].
  intros H. apply andb_prop in H. destruct H as [H H4].
  apply andb_prop in H. destruct H as [H H3].
  apply andb_prop in H. destruct H as [H1 H2].
  assert (Hnum : forall v, numeric L v = true -> exists x, validate_float L v = Ok x).
  { intros v Hv. destruct v; simpl in *; try discriminate; eauto.
    - destruct (int_to_float n); [eauto | discriminate].
    - destruct (str_as_float L s); [simpl; eauto | discriminate]. }
  destruct v1; try discriminate H1.
  destruct (Hnum v2 H2) as (x2 & ->), (Hnum v3 H3) as (x3 & ->), (Hnum v4 H4) as (x4 & ->).
  simpl. eauto.
Qed.

(** A page with an item that does not validate does not validate. *)
Lemma validate_page_bad_item (L : pylib) (page item : pyval) :
  In item (given_items page) ->
  validate_BillItem L item = Raise ValidationError ->
  validate_PagewiseLineItem L page = Raise ValidationError.
Proof.
  intros Hin Hbad.
  destruct (validate_PagewiseLineItem L page) as [p | e] eqn:Hv.
  - exfalso. destruct page; simpl in Hv, Hin; try contradiction.
    bind_inv Hv. bind_inv Hv. bind_inv Hv.
    apply required_ok in Ha1. destruct Ha1 as (v & E & V).
    rewrite E in Hin. apply validate_list_ok in V. destruct V as (l & -> & V).
    rewrite (validate_each_bad _ l item (validate_BillItem_raise L) Hin Hbad) in V.
    discriminate V.
  - rewrite (validate_PagewiseLineItem_raise L page e Hv). reflexivity.
Qed.

(** An output with a page that does not validate is rejected. *)
Lemma init_bad_page (L : pylib) (v page : pyval) :
  In page (given_pages v) ->
  validate_PagewiseLineItem L page = Raise ValidationError ->
  LLMExtractionOutput_init L v = Raise ValidationError.
Proof.
  intros Hin Hbad. destruct v; simpl in Hin; try contradiction.
  simpl. unfold required at 1.
  destruct (dict_lookup "pagewise_line_items" d) as [x |]; [| contradiction].
  destruct x; try contradiction. simpl.
  rewrite (validate_each_bad _ l page (validate_PagewiseLineItem_raise L) Hin Hbad).
  reflexivity.
Qed.

(** The pages of a validated output, next to the pages given. *)
Lemma init_ok_pages (L : pylib) (v : pyval) (extracted : LLMExtractionOutput) :
  LLMExtractionOutput_init L v = Ok extracted ->
  Forall2 (fun given page => validate_PagewiseLineItem L given = Ok page)
    (given_pages v) (pagewise_line_items extracted).
Proof.
  destruct v; simpl; try discriminate. intros H.
  bind_inv H. bind_inv H. injection H as <-. simpl.
  apply required_ok in Ha. destruct Ha as (x & E & V).
  apply validate_list_ok in V. destruct V as (l & -> & V).
  rewrite E. apply validate_each_ok. exact V.
Qed.

Lemma validate_page_type (L : pylib) (given : pyval) (page : PagewiseLineItem) :
  validate_PagewiseLineItem L given = Ok page ->
  given_page_type given = Some (PStr (page_type page)).
Proof.
  destruct given; simpl; try discriminate. intros H.
  bind_inv H. bind_inv H. bind_inv H. injection H as <-. simpl.
  apply required_ok in Ha0. destruct Ha0 as (x & E & V).
  destruct x; simpl in V; try discriminate V. injection V as ->. exact E.
Qed.

Lemma dict_lookup_set_same (k : string) (v : pyval) (d : list (string * pyval)) :
  dict_lookup k (dict_set k v d)
  = match dict_lookup k d with
    | Some _ => Some v
    | None => None
    end.
Proof.
  induction d as [| [k' v'] d IH]; simpl; [reflexivity |].
  destruct (String.eqb k k') eqn:E; simpl; rewrite E; [reflexivity | exact IH].
Qed.

Lemma dict_lookup_set_other (k k' : string) (v : pyval) (d : list (string * pyval)) :
  String.eqb k k' = false ->
  dict_lookup k' (dict_set k v d) = dict_lookup k' d.
Proof.
  intros Hk. induction d as [| [k0 v0] d IH]; simpl; [reflexivity |].
  destruct (String.eqb k k0) eqn:E; simpl.
  - apply String.eqb_eq in E. subst k0.
    rewrite String.eqb_sym, Hk. reflexivity.
  - rewrite IH. reflexivity.
Qed.

(** A page that validates still does with any other string for its
    [page_type], and is the same page but for that string. *)
Lemma validate_retyped_page (L : pylib) (s : string) (given : pyval)
  (page : PagewiseLineItem) :
  validate_PagewiseLineItem L given = Ok page ->
  validate_PagewiseLineItem L (retype_page s given) = Ok (set_page_type s page).
Proof.
  destruct given; simpl; try discriminate. intros H.
  bind_inv H. bind_inv H. bind_inv H. injection H as <-.
  unfold required in *.
  rewrite (dict_lookup_set_other "page_type" "page_no") by reflexivity.
  rewrite (dict_lookup_set_same "page_type" (PStr s) d).
  rewrite (dict_lookup_set_other "page_type" "bill_items") by reflexivity.
  destruct (dict_lookup "page_no" d); [| discriminate]. rewrite Ha. simpl.
  destruct (dict_lookup "page_type" d); [| discriminate]. simpl.
  destruct (dict_lookup "bill_items" d); [| discriminate]. rewrite Ha1. reflexivity.
Qed.

Lemma validate_each_retyped (L : pylib) (s : string) (given : list pyval)
  (pages : list PagewiseLineItem) :
  validate_each (validate_PagewiseLineItem L) given = Ok pages ->
  validate_each (validate_PagewiseLineItem L) (map (retype_page s) given)
  = Ok (map (set_page_type s) pages).
Proof.
  revert pages. induction given as [| g given IH]; simpl; intros pages H.
  - injection H as <-. reflexivity.
  - bind_inv H. bind_inv H. injection H as <-.
    rewrite (validate_retyped_page L s g a Ha). simpl.
    rewrite (IH a0 Ha0). reflexivity.
Qed.

Lemma init_retyped (L : pylib) (s : string) (v : pyval) (extracted : LLMExtractionOutput) :
  LLMExtractionOutput_init L v = Ok extracted ->
  LLMExtractionOutput_init L (retype_output s v)
  = Ok {| pagewise_line_items := map (set_page_type s) (pagewise_line_items extracted);
          document_final_total := document_final_total extracted |}.
Proof.
  destruct v; simpl; try discriminate. intros H.
  bind_inv H. bind_inv H. injection H as <-. simpl.
  unfold required in *.
  destruct (dict_lookup "pagewise_line_items" d) as [pages |] eqn:Hp; [| discriminate].
  destruct pages; simpl in Ha; try discriminate. simpl. unfold required.
  rewrite (dict_lookup_set_same "pagewise_line_items" _ d), Hp.
  rewrite (dict_lookup_set_other "pagewise_line_items" "document_final_total")
    by reflexivity.
  simpl. rewrite (validate_each_retyped L s l a Ha). simpl.
  destruct (dict_lookup "document_final_total" d); [| discriminate].
  rewrite Ha0. reflexivity.
Qed.

Lemma sum_item_amounts_retyped (s : string) (pages : list PagewiseLineItem) :
  sum_item_amounts (map (set_page_type s) pages) = sum_item_amounts pages.
Proof.
  unfold sum_item_amounts. rewrite map_map. reflexivity.
Qed.

Lemma count_bill_items_retyped (s : string) (pages : list PagewiseLineItem) :
  count_bill_items (map (set_page_type s) pages) = count_bill_items pages.
Proof.
  unfold count_bill_items. f_equal. f_equal.
  induction pages as [| page pages IH]; simpl; [reflexivity |].
  rewrite IH. reflexivity.
Qed.

(** C3, as the code has it. [page_type] is validated as a string and no
    more: in every success response each page carries exactly the
    [page_type] string the model output gave for that page, one of the
    three names or not; and whether an output is accepted does not depend
    on that string: an accepted output with any string whatever put for
    the [page_type] of its pages is accepted as well, and answered with
    the same response but for that string. *)
Theorem page_type_is_carried_unchecked
  (L : pylib) (out : llm_output) (r : ExtractionResponse) :
  process_llm_output L out = Ok r ->
  Forall2 (fun given page => given_page_type given = Some (PStr (page_type page)))
    (given_pages (extracted_data out)) (data_pagewise_line_items (data r))
  /\ forall s : string,
       process_llm_output L
         {| extracted_data := retype_output s (extracted_data out);
            llm_token_usage := llm_token_usage out |}
       = Ok (retype_response s r).
Proof.
  intros H. destruct (process_llm_output_ok L out r H) as (e & u & He & Hu & ->).
  split.
  - simpl. apply init_ok_pages in He.
    revert He. apply Forall2_impl. exact (validate_page_type L).
  - intros s.
    rewrite (process_llm_output_validated L
               {| extracted_data := retype_output s (extracted_data out);
                  llm_token_usage := llm_token_usage out |}
               _ u (init_retyped L s _ e He) Hu).
    unfold retype_response. simpl.
    rewrite sum_item_amounts_retyped, count_bill_items_retyped. reflexivity.
Qed.

Lemma page_type_is_carried_unchecked_witness :
  Forall2 (fun given page => given_page_type given = Some (PStr (page_type page)))
    (given_pages bill_value) bill_pages
  /\ forall s : string,
       process_llm_output ref_lib
         {| extracted_data := retype_output s bill_value;
            llm_token_usage := llm_token_usage (output_of bill_value) |}
       = Ok (retype_response s bill_response).
Proof.
  apply (page_type_is_carried_unchecked ref_lib (output_of bill_value) bill_response).
  vm_compute. reflexivity.
Defined.

(** C3 as stated fails: a page classified "Summary", which is none of the
    three names, validates and is returned in a success response. *)
Lemma page_type_outside_names_accepted :
  exists r page,
    process_llm_output ref_lib (output_of summary_value) = Ok r
    /\ is_success r = true
    /\ In page (data_pagewise_line_items (data r))
    /\ page_type page = "Summary"
    /\ ~ In "Summary" page_type_names.
Proof.
  eexists. eexists. split; [vm_compute; reflexivity |].
  split; [reflexivity |]. split; [left; reflexivity |]. split; [reflexivity |].
  intros [H | [H | [H | []]]]; discriminate H.
Qed.

(** C4, as the code has it. Every [BillItem] of the model output must
    be a [dict] with the four fields, the name a string and amount, rate
    and quantity values a [float] field takes (a number, a bool, or text
    the library reads as a number); one item on one page that is not so
    makes the endpoint reject the whole output with a 500, and no
    response is built. *)
Theorem unacceptable_item_rejects_output
  (L : pylib) (out : llm_output) (page item : pyval) :
  In page (given_pages (extracted_data out)) ->
  In item (given_items page) ->
  BillItem_acceptable L item = false ->
  map_exception (process_llm_output L out) = Raise (uncaught "ValidationError").
Proof.
  intros Hpage Hitem Hbad. unfold process_llm_output.
  rewrite (init_bad_page L (extracted_data out) page Hpage).
  - reflexivity.
  - apply (validate_page_bad_item L page item Hitem).
    apply validate_BillItem_unacceptable. exact Hbad.
Qed.

Lemma unacceptable_item_rejects_output_witness :
  BillItem_acceptable ref_lib item_without_rate = false
  /\ map_exception (process_llm_output ref_lib (output_of missing_rate_value))
     = Raise (uncaught "ValidationError").
Proof.
  split; [reflexivity |].
  apply (unacceptable_item_rejects_output ref_lib (output_of missing_rate_value)
           page_without_rate item_without_rate).
  - right. left. reflexivity.
  - left. reflexivity.
  - reflexivity.
Defined.

(** C4 as stated fails: an item whose amount is the text 12.5 validates,
    and the amount enters the total of a success response. *)
Lemma numeric_text_amount_accepted :
  given_items (make_page "1" "Bill Detail"
                 [make_item "A" (PStr "12.5") (PFloat 12.5) (PInt 1)])
  = [make_item "A" (PStr "12.5") (PFloat 12.5) (PInt 1)]
  /\ exists r,
       process_llm_output ref_lib (output_of text_amount_value) = Ok r
       /\ is_success r = true
       /\ final_total_extracted (data r) = 12.5%float
       /\ total_item_count (data r) = 1.
Proof.
  split; [reflexivity |].
  eexists. split; [vm_compute; reflexivity |]. repeat split.
Qed.

(** ** Token usage *)

(** Where line 149 gets the sum right. When the reply's usage metadata
    gives the two token counts as integers (or as booleans, which count
    as 0 and 1), or omits them ([0] then), a success response has these
    as [input_tokens] and [output_tokens], and [total_tokens] is their
    sum. *)
Theorem token_usage_of_integer_counts
  (L : pylib) (reply : Response) (body : pyval) (out : llm_output)
  (r : ExtractionResponse) (va vb : pyval) (a b : Z) :
  json_body reply = Some body ->
  reported_count body "promptTokenCount" = Ok va ->
  reported_count body "candidatesTokenCount" = Ok vb ->
  count_value va = Some a ->
  count_value vb = Some b ->
  attempt_try L (Responds reply) = Ok out ->
  process_llm_output L out = Ok r ->
  token_usage r = {| total_tokens := a + b; input_tokens := a; output_tokens := b |}
  /\ total_tokens (token_usage r)
     = input_tokens (token_usage r) + output_tokens (token_usage r).
Proof.
  intros Hbody Ha Hb Hva Hvb Htry Hr.
  assert (token_usage r
          = {| total_tokens := a + b; input_tokens := a; output_tokens := b |}) as E.
  { unfold attempt_try in Htry.
    apply bind_ok_inv in Htry. destruct Htry as (_ & _ & Htry).
    apply bind_ok_inv in Htry. destruct Htry as (result & Hjson & Htry).
    unfold response_json in Hjson. rewrite Hbody in Hjson. injection Hjson as <-.
    do 7 (apply bind_ok_inv in Htry; destruct Htry as (? & _ & Htry)).
    apply bind_ok_inv in Htry. destruct Htry as (usage & Husage & Htry).
    apply bind_ok_inv in Htry. destruct Htry as (input & Hinput & Htry).
    apply bind_ok_inv in Htry. destruct Htry as (output & Houtput & Htry).
    apply bind_ok_inv in Htry. destruct Htry as (total & Htotal & Htry).
    unfold reported_count in Ha, Hb. rewrite Husage in Ha, Hb. simpl in Ha, Hb.
    rewrite Hinput in Ha. rewrite Houtput in Hb.
    injection Ha as ->. injection Hb as ->. injection Htry as <-.
    destruct (process_llm_output_ok L _ r Hr) as (e & u & _ & Hu & ->).
    simpl. unfold TokenUsage_init in Hu. simpl in Hu.
    destruct va, vb; simpl in Hva, Hvb; try discriminate;
      injection Hva as <-; injection Hvb as <-;
      simpl in Htotal; injection Htotal as <-; simpl in Hu; congruence. }
  split; [exact E |]. rewrite E. reflexivity.
Qed.

Lemma token_usage_of_integer_counts_witness :
  token_usage (bill_response_with 1200 1200 0)
  = {| total_tokens := 1200 + 0; input_tokens := 1200; output_tokens := 0 |}
  /\ total_tokens (token_usage (bill_response_with 1200 1200 0))
     = input_tokens (token_usage (bill_response_with 1200 1200 0))
       + output_tokens (token_usage (bill_response_with 1200 1200 0)).
Proof.
  apply (token_usage_of_integer_counts ref_lib
           (model_answer_with bill_text [("promptTokenCount", PInt 1200)])
           (PDict
              [("candidates",
                PList [PDict [("content",
                               PDict [("parts",
                                       PList [PDict [("text", PStr bill_text)]])])]]);
               ("usageMetadata", PDict [("promptTokenCount", PInt 1200)])])
           (bill_llm_output (PInt 1200) (PInt 0) (PInt 1200))
           (bill_response_with 1200 1200 0) (PInt 1200) (PInt 0) 1200 0).
  - reflexivity.
  - reflexivity.
  - reflexivity.
  - reflexivity.
  - reflexivity.
  - vm_compute. reflexivity.
  - vm_compute. reflexivity.
Defined.

(** C9: the code misses the sum it attempts.  Line 149 adds the two
    counts as they come out of the reply, before [TokenUsage] makes
    integers of them at line 212.  Counts that arrive as the texts 5 and
    7 are concatenated to 57; a count of 9007199254740992 next to a count
    of 1.0 is added in floating point, where the 1.0 is lost.  Both
    replies are answered with a success response whose [total_tokens] is
    not [input_tokens + output_tokens]. *)
Theorem token_usage_total_misses_sum :
  (exists out r,
     attempt_try ref_lib (Responds (model_answer bill_text (PStr "5") (PStr "7"))) = Ok out
     /\ process_llm_output ref_lib out = Ok r
     /\ is_success r = true
     /\ token_usage r = {| total_tokens := 57; input_tokens := 5; output_tokens := 7 |}
     /\ total_tokens (token_usage r)
        <> input_tokens (token_usage r) + output_tokens (token_usage r))
  /\ (exists out r,
        attempt_try ref_lib
          (Responds (model_answer bill_text (PInt 9007199254740992) (PFloat 1))) = Ok out
        /\ process_llm_output ref_lib out = Ok r
        /\ is_success r = true
        /\ token_usage r = {| total_tokens := 9007199254740992;
                              input_tokens := 9007199254740992;
                              output_tokens := 1 |}
        /\ total_tokens (token_usage r)
           <> input_tokens (token_usage r) + output_tokens (token_usage r)).
Proof.
  split.
  - eexists. eexists. split; [vm_compute; reflexivity |].
    split; [vm_compute; reflexivity |].
    split; [reflexivity |]. split; [reflexivity |]. discriminate.
  - eexists. eexists. split; [vm_compute; reflexivity |].
    split; [vm_compute; reflexivity |].
    split; [reflexivity |]. split; [reflexivity |]. discriminate.
Qed.

(** ** Model client *)

(** Line 116 hands the schema, a [dict], to [json.loads], which wants
    text: no request body is ever built. *)
Lemma build_payload_raises (L : pylib) (mime_type base64_data : string) :
  build_payload L mime_type base64_data = Raise TypeError.
Proof. reflexivity. Qed.

Lemma download_trace (w : world) (url : string) (t : list event) :
  snd (_download_file_to_base64 w url t) = t ++ [GET url].
Proof.
  unfold _download_file_to_base64, io_bind, get.
  destruct (download_try (requests_get w url)) as [s | []]; reflexivity.
Qed.

(** The client always raises, and posts nothing. *)
Lemma extract_data_with_llm_raises (L : pylib) (w : world) (url : string)
  (t : list event) :
  exists e t',
    extract_data_with_llm L w url t = (Raise e, t')
    /\ filter is_post t' = filter is_post t.
Proof.
  unfold extract_data_with_llm.
  destruct (String.eqb (API_KEY w) "").
  - eexists. eexists. split; reflexivity.
  - unfold io_bind. pose proof (download_trace w url t) as Ht.
    destruct (_download_file_to_base64 w url t) as [[s | e] t1]; simpl in Ht; subst t1.
    + assert (filter is_post (t ++ [GET url]) = filter is_post t) as Hf.
      { rewrite filter_app. simpl. apply app_nil_r. }
      unfold io_lift.
      destruct (unpack2 (py_split1 "," s)) as [[mime_type base64_data] | e].
      * destruct (bind _ _) as [m | e].
        -- rewrite build_payload_raises. eexists. eexists. split; [reflexivity | exact Hf].
        -- eexists. eexists. split; [reflexivity | exact Hf].
      * eexists. eexists. split; [reflexivity | exact Hf].
    + eexists. eexists. split; [reflexivity |].
      rewrite filter_app. simpl. apply app_nil_r.
Qed.

(** The endpoint answers every request with an error, and never calls the
    model service. *)
Lemma extract_bill_data_fails (L : pylib) (w : world) (request : ExtractionRequest)
  (t : list event) :
  exists c d t',
    extract_bill_data L w request t = (Raise (HTTPException c d), t')
    /\ count_posts t' = count_posts t.
Proof.
  destruct (extract_data_with_llm_raises L w (document request) t) as (e & t' & He & Ht).
  unfold extract_bill_data, io_bind. rewrite He.
  destruct e; simpl; eexists; eexists; eexists;
    (split; [reflexivity | unfold count_posts; rewrite Ht; reflexivity]).
Qed.

(** A 429 fails [raise_for_status]. *)
Lemma attempt_try_429 (L : pylib) (r : Response) :
  status_code r = 429 ->
  attempt_try L (Responds r) = Raise (RequestException "HTTPError").
Proof.
  intros H. unfold attempt_try, raise_for_status. rewrite H. reflexivity.
Qed.

(** One turn of the loop, by what the [try] body did. *)
Lemma retry_loop_returns (L : pylib) (w : world) (body : payload) (attempt : Z)
  (rest : list Z) (response : option Response) (t : list event) (out : llm_output) :
  attempt_try L (requests_post w (count_posts t)) = Ok out ->
  retry_loop L w body (attempt :: rest) response t = (Ok out, t ++ [POST body]).
Proof.
  intros H. simpl. unfold io_bind, post. rewrite H. reflexivity.
Qed.

Lemma retry_loop_continues (L : pylib) (w : world) (body : payload) (attempt : Z)
  (rest : list Z) (response : option Response) (t : list event) (cls : string) :
  attempt_try L (requests_post w (count_posts t)) = Raise (RequestException cls) ->
  rate_limited (assigned (requests_post w (count_posts t)) response) attempt = true ->
  retry_loop L w body (attempt :: rest) response t
  = retry_loop L w body rest (assigned (requests_post w (count_posts t)) response)
      ((t ++ [POST body]) ++ [SLEEP (2 ^ attempt)]).
Proof.
  intros H Hr. simpl. unfold io_bind, post. rewrite H, Hr. reflexivity.
Qed.

Lemma retry_loop_gives_up (L : pylib) (w : world) (body : payload) (attempt : Z)
  (rest : list Z) (response : option Response) (t : list event) (cls : string) :
  attempt_try L (requests_post w (count_posts t)) = Raise (RequestException cls) ->
  rate_limited (assigned (requests_post w (count_posts t)) response) attempt = false ->
  retry_loop L w body (attempt :: rest) response t
  = (api_error (assigned (requests_post w (count_posts t)) response) cls,
     t ++ [POST body]).
Proof.
  intros H Hr. simpl. unfold io_bind, post. rewrite H, Hr. reflexivity.
Qed.

Lemma rate_limited_429 (r : Response) (attempt : Z) :
  status_code r = 429 ->
  rate_limited (Some r) attempt = (attempt <? max_retries - 1).
Proof. intros H. unfold rate_limited. rewrite H. reflexivity. Qed.

(** The retry loop as written: two 429s, then an answer that parses, give
    the answer after sleeps of 1 and 2 and three posts. *)
Lemma retry_loop_429_429_ok (L : pylib) (w : world) (body : payload)
  (r0 r1 : Response) (out : llm_output) :
  requests_post w 0%nat = Responds r0 -> status_code r0 = 429 ->
  requests_post w 1%nat = Responds r1 -> status_code r1 = 429 ->
  attempt_try L (requests_post w 2%nat) = Ok out ->
  retry_loop L w body (py_range max_retries) None [] = (Ok out, three_attempts body).
Proof.
  intros H0 S0 H1 S1 H2.
  change (py_range max_retries) with [0; 1; 2].
  rewrite (retry_loop_continues L w body 0 _ None [] "HTTPError");
    change (count_posts []) with 0%nat; rewrite H0;
    [| apply attempt_try_429, S0 | apply rate_limited_429, S0 ].
  rewrite (retry_loop_continues L w body 1 _ _ _ "HTTPError");
    change (count_posts (([] ++ [POST body]) ++ [SLEEP (2 ^ 0)])) with 1%nat; rewrite H1;
    [| apply attempt_try_429, S1 | apply rate_limited_429, S1 ].
  apply retry_loop_returns. exact H2.
Qed.

(** Three 429s: the third is not retried, and the error is that of line
    162 with the status of the reply. *)
Lemma retry_loop_429_429_429 (L : pylib) (w : world) (body : payload)
  (r0 r1 r2 : Response) :
  requests_post w 0%nat = Responds r0 -> status_code r0 = 429 ->
  requests_post w 1%nat = Responds r1 -> status_code r1 = 429 ->
  requests_post w 2%nat = Responds r2 -> status_code r2 = 429 ->
  retry_loop L w body (py_range max_retries) None []
  = (api_error (Some r2) "HTTPError", three_attempts body).
Proof.
  intros H0 S0 H1 S1 H2 S2.
  change (py_range max_retries) with [0; 1; 2].
  rewrite (retry_loop_continues L w body 0 _ None [] "HTTPError");
    change (count_posts []) with 0%nat; rewrite H0;
    [| apply attempt_try_429, S0 | apply rate_limited_429, S0 ].
  rewrite (retry_loop_continues L w body 1 _ _ _ "HTTPError");
    change (count_posts (([] ++ [POST body]) ++ [SLEEP (2 ^ 0)])) with 1%nat; rewrite H1;
    [| apply attempt_try_429, S1 | apply rate_limited_429, S1 ].
  rewrite (retry_loop_gives_up L w body 2 _ _ _ "HTTPError");
    change (count_posts (((([] ++ [POST body]) ++ [SLEEP (2 ^ 0)]) ++ [POST body])
                           ++ [SLEEP (2 ^ 1)])) with 2%nat; rewrite H2;
    [| apply attempt_try_429, S2 | apply rate_limited_429, S2 ].
  reflexivity.
Qed.

(** The [try] body raises no [HTTPException]. *)
Lemma attempt_try_not_http (L : pylib) (rep : reply) (e : pyexn) :
  attempt_try L rep = Raise e -> is_http_exception e = false.
Proof.
  destruct rep as [cls | r]; simpl.
  - intros H. injection H as <-. reflexivity.
  - intros H.
    repeat (apply bind_raise in H; destruct H as [H | (? & _ & H)]);
      [ .. | discriminate H];
      repeat match type of H with
        | raise_for_status _ = _ => unfold raise_for_status in H
        | response_json _ = _ => unfold response_json in H
        | py_getitem _ _ = _ => unfold py_getitem in H
        | py_getitem0 _ = _ => unfold py_getitem0, py_index in H
        | py_get _ _ _ = _ => unfold py_get in H
        | json_loads _ _ = _ => unfold json_loads in H
        | py_add _ _ = _ => unfold py_add, int_to_float in H
        | context [response_json_exception ?f] => destruct f; simpl in H
        | context [loads_exception ?f] => destruct f; simpl in H
        | context [match ?x with _ => _ end] => destruct x; simpl in H
        | context [if ?x then _ else _] => destruct x
        | Raise _ = Raise _ => injection H as <-; reflexivity
        | Ok _ = Raise _ => discriminate H
        end.
Qed.

(** The error of line 162 is never the 503 of line 167. *)
Lemma api_error_not_retries_failed (response : option Response) (cls : string) :
  is_retries_failed (api_error response cls) = false.
Proof.
  destruct response as [r |]; simpl; [| reflexivity].
  unfold response_json.
  destruct (json_body r) as [body |]; simpl; [| destruct (json_error r); reflexivity].
  assert (forall v k dflt e, py_get v k dflt = Raise e -> e = AttributeError) as Hget.
  { intros v k dflt e. destruct v; simpl; try congruence.
    destruct (dict_lookup k d); congruence. }
  destruct (py_get body "error" (PDict [])) as [error | e] eqn:He; simpl.
  - destruct (py_get error "message" (PStr "Unknown API Error")) as [m | e] eqn:Hm; simpl.
    + reflexivity.
    + rewrite (Hget _ _ _ _ Hm). reflexivity.
  - rewrite (Hget _ _ _ _ He). reflexivity.
Qed.

(** A loop that still has an attempt on which line 154 cannot send it
    into another turn never falls through to line 167. *)
Lemma retry_loop_not_retries_failed (L : pylib) (w : world) (body : payload)
  (attempts : list Z) :
  (exists attempt, In attempt attempts /\ (attempt <? max_retries - 1) = false) ->
  forall (response : option Response) (t : list event),
    is_retries_failed (fst (retry_loop L w body attempts response t)) = false.
Proof.
  induction attempts as [| attempt rest IH]; intros (a & Hin & Ha) response t.
  - destruct Hin.
  - destruct (attempt_try L (requests_post w (count_posts t))) as [out | e] eqn:Htry.
    + rewrite (retry_loop_returns L w body attempt rest response t out Htry).
      reflexivity.
    + pose proof (attempt_try_not_http L _ e Htry) as Hhttp.
      destruct e; try discriminate Hhttp;
        try (simpl; unfold io_bind, post; rewrite Htry; reflexivity).
      destruct (rate_limited (assigned (requests_post w (count_posts t)) response) attempt)
        eqn:Hr.
      * rewrite (retry_loop_continues L w body attempt rest response t cls Htry Hr).
        apply IH. exists a. split; [| exact Ha].
        destruct Hin as [<- | Hin]; [| exact Hin].
        unfold rate_limited in Hr.
        destruct (assigned _ response); [| discriminate Hr].
        rewrite Ha, andb_false_r in Hr. discriminate Hr.
      * rewrite (retry_loop_gives_up L w body attempt rest response t cls Htry Hr).
        apply api_error_not_retries_failed.
Qed.

(** C2: the code does not do what the claim says. Whatever the model
    service answers, the three attempts of lines 122-167 never end in the
    503 of line 167; after three 429s the request body of line 162 is
    raised with status 429; and the endpoint itself answers 500 before the
    first attempt, having built no request body (line 116). *)
Theorem retry_exhaustion_is_not_503 :
  (forall (L : pylib) (w : world) (body : payload) (t : list event),
     is_retries_failed (fst (retry_loop L w body (py_range max_retries) None t)) = false)
  /\ retry_loop ref_lib world_429_always bill_payload (py_range max_retries) None []
     = (Raise (HTTPException 429
                 (DetailLLMApiError (PStr "Resource has been exhausted"))),
        three_attempts bill_payload)
  /\ extract_bill_data ref_lib world_429_always bill_request []
     = (Raise (uncaught "TypeError"), [GET bill_url]).
Proof.
  split; [| split].
  - intros L w body t. apply retry_loop_not_retries_failed.
    exists 2. split; [right; right; left; reflexivity | reflexivity].
  - rewrite (retry_loop_429_429_429 ref_lib world_429_always bill_payload
               rate_limit_answer rate_limit_answer rate_limit_answer);
      reflexivity.
  - vm_compute. reflexivity.
Qed.

(** C5: the code does not do what the claim says. When the model service
    would answer 429, 429 and then 200, the endpoint answers 500 after
    the document fetch, with no model call and no sleep, as it does for
    every request: it never returns a response and never posts.  The loop
    of lines 122-158 alone, handed a request body, would return the
    parsed answer after sleeps of 1 and 2 and exactly three posts. *)
Theorem retry_then_succeed_is_not_reached :
  extract_bill_data ref_lib world_429_429_200 bill_request []
  = (Raise (uncaught "TypeError"), [GET bill_url])
  /\ (forall (L : pylib) (w : world) (request : ExtractionRequest) (t : list event),
        exists c d t',
          extract_bill_data L w request t = (Raise (HTTPException c d), t')
          /\ count_posts t' = count_posts t)
  /\ retry_loop ref_lib world_429_429_200 bill_payload (py_range max_retries) None []
     = (Ok (bill_llm_output (PInt 1200) (PInt 340) (PInt 1540)),
        three_attempts bill_payload)
  /\ process_llm_output ref_lib (bill_llm_output (PInt 1200) (PInt 340) (PInt 1540))
     = Ok bill_response.
Proof.
  split; [vm_compute; reflexivity |].
  split; [exact extract_bill_data_fails |].
  split; [| vm_compute; reflexivity].
  apply (retry_loop_429_429_ok ref_lib world_429_429_200 bill_payload
           rate_limit_answer rate_limit_answer); reflexivity.
Qed.

(** * Further properties *)

(** ** Strings *)

Lemma string_append_assoc (a b c : string) :
  ((a ++ b) ++ c = a ++ (b ++ c))%string.
Proof. induction a as [| x a IH]; simpl; [reflexivity | rewrite IH; reflexivity]. Qed.

Lemma has_char_append (c : ascii) (a b : string) :
  has_char c (a ++ b)%string = has_char c a || has_char c b.
Proof.
  induction a as [| x a IH]; simpl; [reflexivity |].
  rewrite IH. apply orb_assoc.
Qed.

Lemma py_split_nonempty (sep : ascii) (s : string) : py_split sep s <> [].
Proof.
  induction s as [| c s IH]; simpl; [discriminate |].
  destruct (Ascii.eqb c sep); [discriminate |].
  destruct (py_split sep s); [contradiction | discriminate].
Qed.

Lemma py_split1_nonempty (sep : ascii) (s : string) : py_split1 sep s <> [].
Proof.
  induction s as [| c s IH]; simpl; [discriminate |].
  destruct (Ascii.eqb c sep); [discriminate |].
  destruct (py_split1 sep s); [contradiction | discriminate].
Qed.

(** A string without the separator is one piece. *)
Lemma py_split_no_sep (sep : ascii) (s : string) :
  has_char sep s = false -> py_split sep s = [s].
Proof.
  induction s as [| c s IH]; simpl; [reflexivity |].
  intros H. apply orb_false_elim in H. destruct H as [Hc Hs].
  rewrite Hc, (IH Hs). reflexivity.
Qed.

(** [split(sep, 1)] cuts at the first separator. *)
Lemma py_split1_first_sep (sep : ascii) (p q : string) :
  has_char sep p = false ->
  py_split1 sep (p ++ String sep q)%string = [p; q].
Proof.
  induction p as [| c p IH]; simpl.
  - intros _. rewrite Ascii.eqb_refl. reflexivity.
  - intros H. apply orb_false_elim in H. destruct H as [Hc Hp].
    rewrite Hc, (IH Hp). reflexivity.
Qed.

(** A string with a separator in it splits in two. *)
Lemma py_split1_two (sep : ascii) (p q : string) :
  exists a b, py_split1 sep (p ++ String sep q)%string = [a; b].
Proof.
  induction p as [| c p (a & b & IH)]; simpl.
  - rewrite Ascii.eqb_refl. eauto.
  - destruct (Ascii.eqb c sep); [eauto |]. rewrite IH. eauto.
Qed.

(** The first piece of a split does not look past the first separator. *)
Lemma py_split_first_piece (sep : ascii) (a b : string) :
  py_index (py_split sep (a ++ String sep b)%string) 0 = py_index (py_split sep a) 0.
Proof.
  induction a as [| c a IH]; simpl.
  - rewrite Ascii.eqb_refl. reflexivity.
  - destruct (Ascii.eqb c sep); [reflexivity |].
    pose proof (py_split_nonempty sep a) as Ha.
    pose proof (py_split_nonempty sep (a ++ String sep b)%string) as Hab.
    destruct (py_split sep a) as [| w ws]; [contradiction |].
    destruct (py_split sep (a ++ String sep b)%string) as [| w' ws']; [contradiction |].
    unfold py_index in *. simpl in *. congruence.
Qed.

Lemma py_slice_to_length (n : nat) (s : string) :
  py_len (py_slice_to n s) = Nat.min n (py_len s).
Proof.
  revert n. induction s as [| c s IH]; intros n; simpl; [lia |].
  destruct (is_continuation c) eqn:Hc; simpl.
  - rewrite Hc. apply IH.
  - destruct n as [| n]; simpl; [lia |]. rewrite Hc. specialize (IH n). lia.
Qed.

Lemma py_slice_to_prefix (n : nat) (s : string) :
  String.prefix (py_slice_to n s) s = true.
Proof.
  revert n. induction s as [| c s IH]; intros n; simpl; [reflexivity |].
  destruct (is_continuation c); simpl.
  - destruct (ascii_dec c c) as [_ | N]; [apply IH | contradiction].
  - destruct n as [| n]; simpl; [reflexivity |].
    destruct (ascii_dec c c) as [_ | N]; [apply IH | contradiction].
Qed.

Lemma py_slice_to_all (n : nat) (s : string) :
  (py_len s <= n)%nat -> py_slice_to n s = s.
Proof.
  revert n. induction s as [| c s IH]; intros n; simpl; [reflexivity |].
  destruct (is_continuation c); intros H.
  - rewrite (IH n H). reflexivity.
  - destruct n as [| n]; [lia |]. rewrite (IH n); [reflexivity | lia].
Qed.

(** A slice counts code points, not bytes: the first three characters
    of a word of five whose third takes two bytes. *)
Lemma py_slice_to_code_points :
  let i_diaeresis := String (ascii_of_nat 195) (String (ascii_of_nat 175) "") in
  let word := ("na" ++ i_diaeresis ++ "ve")%string in
  py_slice_to 3 word = ("na" ++ i_diaeresis)%string
  /\ py_len word = 5%nat
  /\ String.length word = 6%nat.
Proof.
  vm_compute. repeat split.
Qed.

(** ** The data URL between fetcher and client *)

Lemma py_index_first (sep : ascii) (s : string) :
  exists w, py_index (py_split sep s) 0 = Ok w.
Proof.
  pose proof (py_split_nonempty sep s) as H.
  destruct (py_split sep s) as [| w ws]; [contradiction |]. exists w. reflexivity.
Qed.

(** Lines 94-95 never fail on what line 75 returns. *)
Lemma split_data_url_total (x y : string) :
  exists mime_type base64_data,
    split_data_url ("data:" ++ x ++ ";base64," ++ y)%string
    = Ok (mime_type, base64_data).
Proof.
  replace (x ++ ";base64," ++ y)%string with ((x ++ ";base64") ++ String "," y)%string
    by (rewrite string_append_assoc; reflexivity).
  destruct (py_split1_two "," (x ++ ";base64") y) as (a & b & Hab).
  unfold split_data_url. simpl. rewrite Hab. simpl.
  destruct (py_index_first ":" a) as (w & Hw).
  pose proof (py_split_nonempty ":" a) as Ha.
  destruct (py_split ":" a) as [| w' ws]; [contradiction |].
  unfold py_index in Hw. simpl in Hw. injection Hw as ->.
  unfold py_index at 1. simpl.
  destruct (py_index_first ";" w) as (m & ->). simpl. eauto.
Qed.

(** The client, from the fetched data URL on. *)
Lemma extract_data_with_llm_fetched (L : pylib) (w : world) (url : string)
  (t t1 : list event) (s : string) :
  API_KEY w <> "" ->
  _download_file_to_base64 w url t = (Ok s, t1) ->
  extract_data_with_llm L w url t
  = match split_data_url s with
    | Ok (mime_type, base64_data) =>
        match build_payload L mime_type base64_data with
        | Ok body => retry_loop L w body (py_range max_retries) None t1
        | Raise e => (Raise e, t1)
        end
    | Raise e => (Raise e, t1)
    end.
Proof.
  intros Hkey Hd. unfold extract_data_with_llm.
  destruct (String.eqb_spec (API_KEY w) "") as [E | _]; [contradiction |].
  unfold io_bind, io_lift, split_data_url. rewrite Hd.
  destruct (unpack2 (py_split1 "," s)) as [[mime_type base64_data] | e]; simpl;
    [| reflexivity].
  destruct (py_index (py_split ":" mime_type) 1) as [after_colon | e]; simpl;
    [| reflexivity].
  destruct (py_index (py_split ";" after_colon) 0) as [m | e]; reflexivity.
Qed.

(** ** Document fetcher: every outcome *)

Lemma extract_bill_data_raise (L : pylib) (w : world) (request : ExtractionRequest)
  (t t' : list event) (e : pyexn) :
  extract_data_with_llm L w (document request) t = (Raise e, t') ->
  extract_bill_data L w request t = (map_exception (Raise e), t').
Proof.
  intros H. unfold extract_bill_data, io_bind. rewrite H. reflexivity.
Qed.

Lemma get_failed_download (rep : reply) (cls : string) :
  get_failed rep = Some cls -> download_try rep = Raise (RequestException cls).
Proof.
  destruct rep as [c | r]; simpl.
  - intros H. injection H as ->. reflexivity.
  - unfold raise_for_status.
    destruct ((400 <=? status_code r) && (status_code r <? 600)); [| discriminate].
    intros H. injection H as <-. reflexivity.
Qed.

Lemma get_failed_none (r : Response) :
  get_failed (Responds r) = None -> raise_for_status r = Ok tt.
Proof.
  simpl. unfold raise_for_status.
  destruct ((400 <=? status_code r) && (status_code r <? 600)); [discriminate | reflexivity].
Qed.

(** What the fetcher does, by what the document server does. *)
Lemma download_outcome (w : world) (url : string) (t : list event) :
  (exists r,
     requests_get w url = Responds r
     /\ raise_for_status r = Ok tt
     /\ supported_content_type (declared_content_type r) = true
     /\ _download_file_to_base64 w url t
        = (Ok (data_url (declared_content_type r) r), t ++ [GET url]))
  \/ (exists d,
        _download_file_to_base64 w url t = (Raise (HTTPException 400 d), t ++ [GET url])).
Proof.
  destruct (get_failed (requests_get w url)) as [cls |] eqn:Hf.
  - right. eexists. unfold _download_file_to_base64, io_bind, get.
    rewrite (get_failed_download _ cls Hf). reflexivity.
  - destruct (requests_get w url) as [c | r] eqn:Hget; [discriminate Hf |].
    pose proof (get_failed_none r Hf) as Hs.
    rewrite (download_responds w url t r Hget Hs). fold (declared_content_type r).
    cbv zeta.
    destruct (supported_content_type (declared_content_type r)) eqn:Hsup.
    + left. exists r. repeat split; assumption.
    + right. eexists. reflexivity.
Qed.

(** X1. A document that cannot be fetched, because [requests.get] raises or
    the server answers 4xx or 5xx, ends the request with a 400 whose
    detail (line 79) carries the text of the exception, whatever its
    class, and the first 50 characters of the URL (code points, not
    bytes; the whole URL when it has no more); the GET is made once and
    not repeated, and no model call follows. *)
Theorem download_failure_is_400
  (L : pylib) (w : world) (request : ExtractionRequest) (t : list event)
  (cls : string) :
  API_KEY w <> "" ->
  get_failed (requests_get w (document request)) = Some cls ->
  exists url50,
    _download_file_to_base64 w (document request) t
    = (Raise (HTTPException 400
                (DetailDownloadFailed url50 (get_error_text w (document request)))),
       t ++ [GET (document request)])
    /\ extract_bill_data L w request t
       = (Raise (HTTPException 400
                   (DetailDownloadFailed url50 (get_error_text w (document request)))),
          t ++ [GET (document request)])
    /\ py_len url50 = Nat.min 50 (py_len (document request))
    /\ String.prefix url50 (document request) = true
    /\ ((py_len (document request) <= 50)%nat -> url50 = document request).
Proof.
  intros Hkey Hf. exists (py_slice_to 50 (document request)).
  assert (_download_file_to_base64 w (document request) t
          = (Raise (HTTPException 400
                      (DetailDownloadFailed (py_slice_to 50 (document request))
                         (get_error_text w (document request)))),
             t ++ [GET (document request)])) as Hd.
  { unfold _download_file_to_base64, io_bind, get.
    rewrite (get_failed_download _ cls Hf). reflexivity. }
  split; [exact Hd |]. split.
  - apply extract_bill_data_http. unfold extract_data_with_llm.
    destruct (String.eqb_spec (API_KEY w) "") as [E | _]; [contradiction |].
    unfold io_bind. rewrite Hd. reflexivity.
  - split; [apply py_slice_to_length |].
    split; [apply py_slice_to_prefix | apply py_slice_to_all].
Qed.

Lemma download_failure_is_400_witness :
  exists url50,
    _download_file_to_base64 world_unreachable bill_url []
    = (Raise (HTTPException 400
                (DetailDownloadFailed url50 (get_error_text world_unreachable bill_url))),
       [GET bill_url])
    /\ extract_bill_data ref_lib world_unreachable bill_request []
       = (Raise (HTTPException 400
                   (DetailDownloadFailed url50
                      (get_error_text world_unreachable bill_url))),
          [GET bill_url])
    /\ py_len url50 = Nat.min 50 (py_len bill_url)
    /\ String.prefix url50 bill_url = true
    /\ ((py_len bill_url <= 50)%nat -> url50 = bill_url).
Proof.
  apply (download_failure_is_400 ref_lib world_unreachable bill_request []
           "ConnectTimeout").
  - discriminate.
  - reflexivity.
Defined.

(** X2. Whatever the document server does, the fetcher makes exactly one
    GET and either returns the data URL of a document whose declared type
    is supported, or raises an [HTTPException] with status 400; no other
    exception leaves it. *)
Theorem fetcher_returns_data_url_or_400 (w : world) (url : string) (t : list event) :
  snd (_download_file_to_base64 w url t) = t ++ [GET url]
  /\ ((exists r,
         requests_get w url = Responds r
         /\ supported_content_type (declared_content_type r) = true
         /\ fst (_download_file_to_base64 w url t)
            = Ok (data_url (declared_content_type r) r))
      \/ exists d,
           fst (_download_file_to_base64 w url t) = Raise (HTTPException 400 d)).
Proof.
  split; [apply download_trace |].
  destruct (download_outcome w url t) as [(r & Hget & _ & Hsup & Hd) | (d & Hd)];
    rewrite Hd; [left; exists r | right; exists d]; repeat split; assumption.
Qed.

(** X3. Lines 94-95 undo line 75 when the declared content type has no
    comma and no colon: the data URL splits back into the content type up
    to its first semicolon (its parameters are dropped) and the base64
    text of the document. *)
Theorem data_url_round_trip (content_type : string) (r : Response) :
  has_char "," content_type = false ->
  has_char ":" content_type = false ->
  exists mime_type,
    py_index (py_split ";" content_type) 0 = Ok mime_type
    /\ split_data_url (data_url content_type r)
       = Ok (mime_type, b64encode (content r)).
Proof.
  intros Hcomma Hcolon.
  destruct (py_index_first ";" content_type) as (m & Hm). exists m.
  split; [exact Hm |].
  unfold data_url.
  replace (content_type ++ ";base64," ++ b64encode (content r))%string
    with ((content_type ++ ";base64") ++ String "," (b64encode (content r)))%string
    by (rewrite string_append_assoc; reflexivity).
  unfold split_data_url.
  change ("data:" ++ (content_type ++ ";base64") ++ String "," (b64encode (content r)))%string
    with (("data:" ++ content_type ++ ";base64") ++ String "," (b64encode (content r)))%string.
  rewrite py_split1_first_sep.
  - simpl.
    rewrite (py_split_no_sep ":" (content_type ++ ";base64")%string).
    + unfold py_index at 1. simpl.
      change (content_type ++ ";base64")%string
        with (content_type ++ String ";" "base64")%string.
      rewrite py_split_first_piece, Hm. reflexivity.
    + rewrite has_char_append, Hcolon. reflexivity.
  - change ("data:" ++ content_type ++ ";base64")%string
      with ("data:" ++ (content_type ++ ";base64"))%string.
    rewrite !has_char_append, Hcomma. reflexivity.
Qed.

Lemma data_url_round_trip_witness :
  exists mime_type,
    py_index (py_split ";" "application/pdf; charset=binary") 0 = Ok mime_type
    /\ split_data_url
         (data_url "application/pdf; charset=binary" (document_answer None))
       = Ok (mime_type, b64encode "%PDF").
Proof.
  apply (data_url_round_trip "application/pdf; charset=binary" (document_answer None));
    reflexivity.
Defined.

(** X4. A comma in the declared content type moves the cut of line 94:
    with the content type [a ++ "," ++ b], [a] free of commas and colons,
    the MIME type is read off [a] and the data handed on as base64 is [b],
    the marker and only then the base64 text of the document. *)
Theorem data_url_comma_in_content_type (a b : string) (r : Response) :
  has_char "," a = false ->
  has_char ":" a = false ->
  exists mime_type,
    py_index (py_split ";" a) 0 = Ok mime_type
    /\ split_data_url (data_url (a ++ String "," b) r)
       = Ok (mime_type, (b ++ ";base64," ++ b64encode (content r))%string).
Proof.
  intros Hcomma Hcolon.
  destruct (py_index_first ";" a) as (m & Hm). exists m. split; [exact Hm |].
  unfold data_url, split_data_url.
  replace ("data:" ++ (a ++ String "," b) ++ ";base64," ++ b64encode (content r))%string
    with (("data:" ++ a) ++ String "," (b ++ ";base64," ++ b64encode (content r)))%string.
  - rewrite py_split1_first_sep.
    + simpl. rewrite (py_split_no_sep ":" a Hcolon).
      unfold py_index at 1. simpl. rewrite Hm. reflexivity.
    + rewrite has_char_append, Hcomma. reflexivity.
  - simpl. do 5 f_equal. rewrite string_append_assoc. reflexivity.
Qed.

Lemma data_url_comma_in_content_type_witness :
  supported_content_type "image/png,image/webp" = true
  /\ exists mime_type,
       py_index (py_split ";" "image/png") 0 = Ok mime_type
       /\ split_data_url (data_url "image/png,image/webp" (document_answer None))
          = Ok (mime_type, "image/webp;base64,JVBERg==").
Proof.
  split; [reflexivity |].
  apply (data_url_comma_in_content_type "image/png" "image/webp" (document_answer None));
    reflexivity.
Defined.

(** ** The endpoint as a whole *)

Lemma extract_bill_data_fetched
  (L : pylib) (w : world) (request : ExtractionRequest) (t : list event)
  (r : Response) :
  API_KEY w <> "" ->
  requests_get w (document request) = Responds r ->
  raise_for_status r = Ok tt ->
  supported_content_type (declared_content_type r) = true ->
  extract_bill_data L w request t
  = (Raise (uncaught "TypeError"), t ++ [GET (document request)]).
Proof.
  intros Hkey Hget Hstatus Hsup.
  pose proof (download_responds w (document request) t r Hget Hstatus) as Hd.
  fold (declared_content_type r) in Hd. cbv zeta in Hd. rewrite Hsup in Hd.
  assert (extract_data_with_llm L w (document request) t
          = (Raise TypeError, t ++ [GET (document request)])) as H.
  { rewrite (extract_data_with_llm_fetched L w _ t _ _ Hkey Hd).
    unfold data_url.
    destruct (split_data_url_total (declared_content_type r) (b64encode (content r)))
      as (m & b & ->).
    rewrite build_payload_raises. reflexivity. }
  rewrite (extract_bill_data_raise L w request t _ TypeError H). reflexivity.
Qed.

(** X5. For a request with an API key whose document is fetched without an
    error status and with a supported declared type, the endpoint gets no
    further than the request body: line 116 raises [TypeError], and the
    answer is the 500 "UNCAUGHT SERVER ERROR: TypeError. Check Render
    logs." after the one GET, with no call of the model service. *)
Theorem fetched_document_ends_in_type_error
  (L : pylib) (w : world) (request : ExtractionRequest) (t : list event)
  (r : Response) :
  API_KEY w <> "" ->
  requests_get w (document request) = Responds r ->
  raise_for_status r = Ok tt ->
  supported_content_type (declared_content_type r) = true ->
  extract_bill_data L w request t
  = (Raise (uncaught "TypeError"), t ++ [GET (document request)]).
Proof.
  intros Hkey Hget Hstatus Hsup.
  exact (extract_bill_data_fetched L w request t r Hkey Hget Hstatus Hsup).
Qed.

Lemma fetched_document_ends_in_type_error_witness :
  extract_bill_data ref_lib (world_content_type (Some "image/png")) bill_request []
  = (Raise (uncaught "TypeError"), [GET bill_url]).
Proof.
  apply (fetched_document_ends_in_type_error ref_lib
           (world_content_type (Some "image/png")) bill_request []
           (document_answer (Some "image/png")));
    [discriminate | reflexivity | reflexivity | reflexivity].
Defined.

(** X6. Every request is answered with an [HTTPException] of status 400 or
    500, and all the I/O it has done by then is at most one GET of the
    document: no model call, no sleep. *)
Theorem endpoint_status_and_io
  (L : pylib) (w : world) (request : ExtractionRequest) (t : list event) :
  exists c d t',
    extract_bill_data L w request t = (Raise (HTTPException c d), t')
    /\ (c = 400 \/ c = 500)
    /\ (t' = t \/ t' = t ++ [GET (document request)]).
Proof.
  destruct (String.eqb_spec (API_KEY w) "") as [Hkey | Hkey].
  - exists 500. eexists. exists t. split; [| split; [right | left]; reflexivity].
    apply extract_bill_data_http. unfold extract_data_with_llm.
    rewrite Hkey. reflexivity.
  - destruct (download_outcome w (document request) t)
      as [(r & Hget & Hs & Hsup & Hd) | (d & Hd)].
    + exists 500. eexists. exists (t ++ [GET (document request)]).
      split; [| split; right; reflexivity].
      apply (extract_bill_data_fetched L w request t r); assumption.
    + exists 400, d, (t ++ [GET (document request)]).
      split; [| split; [left | right]; reflexivity].
      apply extract_bill_data_http. unfold extract_data_with_llm.
      destruct (String.eqb_spec (API_KEY w) "") as [E | _]; [contradiction |].
      unfold io_bind. rewrite Hd. reflexivity.
Qed.

(** ** Model client: the retry loop in every case *)

(** A turn of the loop whose [try] body raises something else than a
    [RequestException] is the last. *)
Lemma retry_loop_other (L : pylib) (w : world) (body : payload) (attempt : Z)
  (rest : list Z) (response : option Response) (t : list event) (e : pyexn) :
  attempt_try L (requests_post w (count_posts t)) = Raise e ->
  (forall cls, e <> RequestException cls) ->
  retry_loop L w body (attempt :: rest) response t
  = (Raise (structure_error e), t ++ [POST body]).
Proof.
  intros H Hcls. simpl. unfold io_bind, post. rewrite H.
  destruct e; try reflexivity. destruct (Hcls cls). reflexivity.
Qed.

(** One turn: either the loop is over after this POST, or line 154 held
    and it goes on after sleeping [2 ^ attempt]. *)
Lemma retry_loop_step (L : pylib) (w : world) (body : payload) (attempt : Z)
  (rest : list Z) (response : option Response) (t : list event) :
  snd (retry_loop L w body (attempt :: rest) response t) = t ++ [POST body]
  \/ exists response',
       rate_limited response' attempt = true
       /\ retry_loop L w body (attempt :: rest) response t
          = retry_loop L w body rest response'
              ((t ++ [POST body]) ++ [SLEEP (2 ^ attempt)]).
Proof.
  destruct (attempt_try L (requests_post w (count_posts t))) as [out | e] eqn:Htry.
  - left. rewrite (retry_loop_returns L w body attempt rest response t out Htry).
    reflexivity.
  - assert ((exists cls, e = RequestException cls)
            \/ forall cls, e <> RequestException cls) as [(cls & ->) | Hother].
    { destruct e; try (right; discriminate). left. eauto. }
    + destruct (rate_limited (assigned (requests_post w (count_posts t)) response) attempt)
        eqn:Hr.
      * right. eexists. split; [exact Hr |].
        apply (retry_loop_continues L w body attempt rest response t cls Htry Hr).
      * left. rewrite (retry_loop_gives_up L w body attempt rest response t cls Htry Hr).
        reflexivity.
    + left. rewrite (retry_loop_other L w body attempt rest response t e Htry Hother).
      reflexivity.
Qed.

Lemma rate_limited_last (response : option Response) :
  rate_limited response (max_retries - 1) = false.
Proof.
  destruct response as [r |]; simpl; [| reflexivity]. apply andb_false_r.
Qed.

(** X7. Whatever the model service answers, the loop makes one, two or
    three calls, sleeps 1 before the second and 2 before the third, and
    does nothing else: never a fourth call, never a sleep after the last
    one. *)
Theorem retry_loop_trace_shape (L : pylib) (w : world) (body : payload)
  (t : list event) :
  snd (retry_loop L w body (py_range max_retries) None t) = t ++ one_attempt body
  \/ snd (retry_loop L w body (py_range max_retries) None t) = t ++ two_attempts body
  \/ snd (retry_loop L w body (py_range max_retries) None t) = t ++ three_attempts body.
Proof.
  change (py_range max_retries) with [0; 1; 2].
  destruct (retry_loop_step L w body 0 [1; 2] None t) as [H | (r1 & _ & ->)];
    [left; exact H | right].
  destruct (retry_loop_step L w body 1 [2] r1 ((t ++ [POST body]) ++ [SLEEP (2 ^ 0)]))
    as [H | (r2 & _ & ->)].
  - left. rewrite H. rewrite <- !app_assoc. reflexivity.
  - right.
    destruct (retry_loop_step L w body 2 [] r2
                ((((t ++ [POST body]) ++ [SLEEP (2 ^ 0)]) ++ [POST body])
                 ++ [SLEEP (2 ^ 1)]))
      as [H | (r3 & Hr & _)].
    + rewrite H. rewrite <- !app_assoc. reflexivity.
    + change 2 with (max_retries - 1) in Hr. rewrite rate_limited_last in Hr.
      discriminate Hr.
Qed.

(** X8. An error status other than 429 on the first call is not retried:
    the loop raises an [HTTPException] with the status of the reply and
    the message found under [error.message] in its JSON body ("Unknown
    API Error" when there is none), after one call and no sleep. *)
Theorem error_status_is_forwarded
  (L : pylib) (w : world) (body : payload) (t : list event) (r : Response)
  (reply_json error message : pyval) :
  requests_post w (count_posts t) = Responds r ->
  raise_for_status r = Raise (RequestException "HTTPError") ->
  status_code r <> 429 ->
  json_body r = Some reply_json ->
  py_get reply_json "error" (PDict []) = Ok error ->
  py_get error "message" (PStr "Unknown API Error") = Ok message ->
  retry_loop L w body (py_range max_retries) None t
  = (Raise (HTTPException (status_code r) (DetailLLMApiError message)),
     t ++ one_attempt body).
Proof.
  intros Hpost Hstatus H429 Hjson Herror Hmessage.
  change (py_range max_retries) with [0; 1; 2].
  rewrite (retry_loop_gives_up L w body 0 _ None t "HTTPError"); rewrite Hpost.
  - simpl. unfold response_json. rewrite Hjson. simpl.
    rewrite Herror. simpl. rewrite Hmessage. reflexivity.
  - unfold attempt_try. rewrite Hstatus. reflexivity.
  - unfold rate_limited. simpl.
    destruct (Z.eqb_spec (status_code r) 429) as [E | _]; [contradiction | reflexivity].
Qed.

Lemma error_status_is_forwarded_witness :
  retry_loop ref_lib (world_script [Responds forbidden_answer]) bill_payload
    (py_range max_retries) None []
  = (Raise (HTTPException 403 (DetailLLMApiError (PStr "API key not valid"))),
     one_attempt bill_payload).
Proof.
  apply (error_status_is_forwarded ref_lib (world_script [Responds forbidden_answer])
           bill_payload [] forbidden_answer
           (PDict [("error", PDict [("code", PInt 403);
                                    ("message", PStr "API key not valid")])])
           (PDict [("code", PInt 403); ("message", PStr "API key not valid")])
           (PStr "API key not valid"));
    first [reflexivity | discriminate].
Defined.



(** X10. The variable [response] outlives a call that raises: after a
    429, calls that raise are taken for rate limiting as well.  With a 429
    on the first call and exceptions on the second and third, the loop
    sleeps 1 and 2, makes all three calls, and then reports status 429
    with the message of the first reply. *)
Theorem stale_response_is_reused
  (L : pylib) (w : world) (body : payload) (r : Response) (c1 c2 : string)
  (reply_json error message : pyval) :
  requests_post w 0%nat = Responds r ->
  status_code r = 429 ->
  requests_post w 1%nat = Raises c1 ->
  requests_post w 2%nat = Raises c2 ->
  json_body r = Some reply_json ->
  py_get reply_json "error" (PDict []) = Ok error ->
  py_get error "message" (PStr "Unknown API Error") = Ok message ->
  retry_loop L w body (py_range max_retries) None []
  = (Raise (HTTPException 429 (DetailLLMApiError message)), three_attempts body).
Proof.
  intros H0 S0 H1 H2 Hjson Herror Hmessage.
  change (py_range max_retries) with [0; 1; 2].
  rewrite (retry_loop_continues L w body 0 _ None [] "HTTPError");
    change (count_posts []) with 0%nat; rewrite H0;
    [| apply attempt_try_429, S0 | apply rate_limited_429, S0 ].
  rewrite (retry_loop_continues L w body 1 _ _ _ c1);
    change (count_posts (([] ++ [POST body]) ++ [SLEEP (2 ^ 0)])) with 1%nat; rewrite H1;
    [| reflexivity | apply rate_limited_429, S0 ].
  rewrite (retry_loop_gives_up L w body 2 _ _ _ c2);
    change (count_posts (((([] ++ [POST body]) ++ [SLEEP (2 ^ 0)]) ++ [POST body])
                           ++ [SLEEP (2 ^ 1)])) with 2%nat; rewrite H2;
    [| reflexivity | apply rate_limited_429, S0 ].
  simpl. unfold response_json. rewrite Hjson. simpl.
  rewrite Herror. simpl. rewrite Hmessage, S0. reflexivity.
Qed.

Lemma stale_response_is_reused_witness :
  retry_loop ref_lib (world_script [Responds rate_limit_answer]) bill_payload
    (py_range max_retries) None []
  = (Raise (HTTPException 429 (DetailLLMApiError (PStr "Resource has been exhausted"))),
     three_attempts bill_payload).
Proof.
  apply (stale_response_is_reused ref_lib (world_script [Responds rate_limit_answer])
           bill_payload rate_limit_answer "ConnectionError" "ConnectionError"
           (PDict [("error", PDict [("code", PInt 429);
                                    ("message", PStr "Resource has been exhausted")])])
           (PDict [("code", PInt 429); ("message", PStr "Resource has been exhausted")])
           (PStr "Resource has been exhausted"));
    reflexivity.
Defined.

(** X11. Only a 429 is retried: when the first call is answered with any
    other status, or raises, the loop ends with that call, whatever the
    outcome, and never sleeps. *)
Theorem only_429_is_retried
  (L : pylib) (w : world) (body : payload) (t : list event) :
  is_429 (requests_post w (count_posts t)) = false ->
  snd (retry_loop L w body (py_range max_retries) None t) = t ++ one_attempt body.
Proof.
  intros H. change (py_range max_retries) with [0; 1; 2].
  destruct (attempt_try L (requests_post w (count_posts t))) as [out | e] eqn:Htry.
  - rewrite (retry_loop_returns L w body 0 _ None t out Htry). reflexivity.
  - assert (rate_limited (assigned (requests_post w (count_posts t)) None) 0 = false)
      as Hno.
    { destruct (requests_post w (count_posts t)) as [c | r]; simpl in *;
        [reflexivity | rewrite H; reflexivity]. }
    destruct e;
      try (rewrite (retry_loop_other L w body 0 _ None t _ Htry); [reflexivity |];
           discriminate).
    rewrite (retry_loop_gives_up L w body 0 _ None t cls Htry Hno). reflexivity.
Qed.

Lemma only_429_is_retried_witness :
  snd (retry_loop ref_lib (world_script [Responds no_candidates_answer]) bill_payload
         (py_range max_retries) None [])
  = one_attempt bill_payload.
Proof.
  apply (only_429_is_retried ref_lib (world_script [Responds no_candidates_answer])
           bill_payload []).
  reflexivity.
Defined.

(** ** Model client: reading the reply *)

(** The [try] body on a reply without an error status, from line 137 on. *)
Lemma attempt_try_parsed (L : pylib) (r : Response) (reply_json : pyval) :
  raise_for_status r = Ok tt ->
  json_body r = Some reply_json ->
  attempt_try L (Responds r)
  = (extracted <- parsed_output L reply_json ;;
     usage_metadata <- py_get reply_json "usageMetadata" (PDict []) ;;
     input_tokens <- py_get usage_metadata "promptTokenCount" (PInt 0) ;;
     output_tokens <- py_get usage_metadata "candidatesTokenCount" (PInt 0) ;;
     total <- py_add input_tokens output_tokens ;;
     Ok {| extracted_data := extracted;
           llm_token_usage := {| tu_input_tokens := input_tokens;
                                 tu_output_tokens := output_tokens;
                                 tu_total_tokens := total |} |}).
Proof.
  intros Hs Hj. unfold attempt_try, response_json, parsed_output, generated_text.
  rewrite Hs, Hj. simpl.
  destruct (py_getitem reply_json "candidates") as [c |]; simpl; [| reflexivity].
  destruct (py_getitem0 c) as [c0 |]; simpl; [| reflexivity].
  destruct (py_getitem c0 "content") as [ct |]; simpl; [| reflexivity].
  destruct (py_getitem ct "parts") as [ps |]; simpl; [| reflexivity].
  destruct (py_getitem0 ps) as [p0 |]; simpl; [| reflexivity].
  destruct (py_getitem p0 "text") as [tx |]; simpl; reflexivity.
Qed.

(** Lines 137-138 raise [KeyError], [IndexError] or [TypeError] from the
    subscripts, and from [json.loads] a [JSONDecodeError], the
    [ValueError] of an integer with too many digits or a
    [RecursionError]. *)
Lemma parsed_output_raise (L : pylib) (reply_json : pyval) (e : pyexn) :
  parsed_output L reply_json = Raise e ->
  e = KeyError \/ e = IndexError \/ e = TypeError \/ e = JSONDecodeError
  \/ (exists msg, e = ValueError msg) \/ e = RecursionError.
Proof.
  unfold parsed_output, generated_text. intros H.
  repeat (apply bind_raise in H; destruct H as [H | (? & _ & H)]);
    repeat match type of H with
      | py_getitem _ _ = _ => unfold py_getitem in H
      | py_getitem0 _ = _ => unfold py_getitem0, py_index in H
      | json_loads _ _ = _ => unfold json_loads in H
      | context [loads_exception ?f] => destruct f; simpl in H
      | context [match ?x with _ => _ end] => destruct x; simpl in H
      | Raise _ = Raise _ => injection H as <-; eauto 10
      | Ok _ = Raise _ => discriminate H
      end.
Qed.

(** X12. A reply without an error status whose generated text cannot be
    found or parsed ends the loop at once, after the one call and with no
    retry: a missing key, an empty list or text that is not JSON gives a
    500 about the structure of the reply, while a [TypeError] (a value of
    the wrong kind on the path, text that is not a string), the
    [ValueError] of [json.loads] for an integer with more digits than
    Python converts and its [RecursionError] for text nested too deep are
    not among the classes caught at line 163 and leave the client as
    they are.  Lines 137-138 raise no other exception. *)
Theorem malformed_reply_is_not_retried
  (L : pylib) (w : world) (body : payload) (t : list event) (r : Response)
  (reply_json : pyval) (e : pyexn) :
  requests_post w (count_posts t) = Responds r ->
  raise_for_status r = Ok tt ->
  json_body r = Some reply_json ->
  parsed_output L reply_json = Raise e ->
  retry_loop L w body (py_range max_retries) None t
  = (Raise (structure_error e), t ++ one_attempt body)
  /\ (e = KeyError \/ e = IndexError \/ e = TypeError \/ e = JSONDecodeError
      \/ (exists msg, e = ValueError msg) \/ e = RecursionError)
  /\ (is_http_exception (structure_error e) = true <->
      e = KeyError \/ e = IndexError \/ e = JSONDecodeError).
Proof.
  intros Hpost Hs Hj He. pose proof (parsed_output_raise L reply_json e He) as Hcases.
  split; [| split; [exact Hcases |]].
  - change (py_range max_retries) with [0; 1; 2].
    apply retry_loop_other.
    + rewrite Hpost, (attempt_try_parsed L r reply_json Hs Hj), He. reflexivity.
    + intros cls.
      destruct Hcases as [-> | [-> | [-> | [-> | [[msg ->] | ->]]]]]; discriminate.
  - destruct Hcases as [-> | [-> | [-> | [-> | [[msg ->] | ->]]]]]; simpl;
      split; intros H; try discriminate H; auto;
      destruct H as [H | [H | H]]; discriminate H.
Qed.

Lemma malformed_reply_is_not_retried_witness :
  retry_loop ref_lib (world_script [Responds no_candidates_answer]) bill_payload
    (py_range max_retries) None []
  = (Raise (HTTPException 500 (DetailInvalidStructure "IndexError")),
     one_attempt bill_payload)
  /\ (IndexError = KeyError \/ IndexError = IndexError
      \/ IndexError = TypeError \/ IndexError = JSONDecodeError
      \/ (exists msg, IndexError = ValueError msg) \/ IndexError = RecursionError)
  /\ (is_http_exception (HTTPException 500 (DetailInvalidStructure "IndexError")) = true
      <-> IndexError = KeyError \/ IndexError = IndexError
          \/ IndexError = JSONDecodeError).
Proof.
  apply (malformed_reply_is_not_retried ref_lib
           (world_script [Responds no_candidates_answer]) bill_payload []
           no_candidates_answer (PDict [("candidates", PList [])]) IndexError);
    reflexivity.
Defined.

(** X13. A reply whose generated text parses, but whose [usageMetadata] is
    present and not an object ([null], say), loses the extraction: line
    141 raises [AttributeError], and the loop ends with the 500 about the
    structure of the reply after the one call. *)
Theorem bad_usage_metadata_discards_extraction
  (L : pylib) (w : world) (body : payload) (t : list event) (r : Response)
  (d : list (string * pyval)) (extracted usage : pyval) :
  requests_post w (count_posts t) = Responds r ->
  raise_for_status r = Ok tt ->
  json_body r = Some (PDict d) ->
  parsed_output L (PDict d) = Ok extracted ->
  dict_lookup "usageMetadata" d = Some usage ->
  is_dict usage = false ->
  retry_loop L w body (py_range max_retries) None t
  = (Raise (HTTPException 500 (DetailInvalidStructure "AttributeError")),
     t ++ one_attempt body).
Proof.
  intros Hpost Hs Hj Hp Hu Hd.
  change (py_range max_retries) with [0; 1; 2].
  apply (retry_loop_other L w body 0 _ None t AttributeError); [| discriminate].
  rewrite Hpost, (attempt_try_parsed L r (PDict d) Hs Hj), Hp. simpl. rewrite Hu.
  destruct usage; try reflexivity. discriminate Hd.
Qed.

Lemma bad_usage_metadata_discards_extraction_witness :
  retry_loop ref_lib (world_script [Responds null_usage_answer]) bill_payload
    (py_range max_retries) None []
  = (Raise (HTTPException 500 (DetailInvalidStructure "AttributeError")),
     one_attempt bill_payload).
Proof.
  apply (bad_usage_metadata_discards_extraction ref_lib
           (world_script [Responds null_usage_answer]) bill_payload []
           null_usage_answer
           [("candidates",
             PList [PDict [("content",
                            PDict [("parts", PList [PDict [("text", PStr bill_text)]])])]]);
            ("usageMetadata", PNone)]
           bill_value PNone);
    reflexivity.
Defined.

(** ** Validation and aggregation: further behaviour *)

Lemma validate_item_fields (L : pylib) (given : pyval) (item : BillItem) :
  validate_BillItem L given = Ok item ->
  given_item_name given = Some (PStr (item_name item))
  /\ forall x, given_item_amount given = Some (PFloat x) -> item_amount item = x.
Proof.
  destruct given; simpl; try discriminate. intros H.
  bind_inv H. bind_inv H. bind_inv H. bind_inv H. injection H as <-. simpl.
  apply required_ok in Ha, Ha0. destruct Ha as (v & E & V), Ha0 as (v' & E' & V').
  split.
  - destruct v; simpl in V; try discriminate V. injection V as ->. exact E.
  - intros x Hx. rewrite E' in Hx. injection Hx as ->. simpl in V'. congruence.
Qed.

Lemma validate_page_items (L : pylib) (given : pyval) (page : PagewiseLineItem) :
  validate_PagewiseLineItem L given = Ok page ->
  given_page_no given = Some (PStr (page_no page))
  /\ Forall2 (fun gi item => validate_BillItem L gi = Ok item)
       (given_items given) (bill_items page).
Proof.
  destruct given; simpl; try discriminate. intros H.
  bind_inv H. bind_inv H. bind_inv H. injection H as <-. simpl.
  apply required_ok in Ha, Ha1. destruct Ha as (v & E & V), Ha1 as (v' & E' & V').
  split.
  - destruct v; simpl in V; try discriminate V. injection V as ->. exact E.
  - apply validate_list_ok in V'. destruct V' as (l & -> & V'). rewrite E'.
    apply validate_each_ok. exact V'.
Qed.

(** X14. A success response lists the pages of the model output in their
    order and, on each page, the items in their order, one for one: the
    page numbers and item names are those given, and an amount given as a
    JSON float is carried as it is (only the total is rounded). *)
Theorem pages_and_items_keep_their_order
  (L : pylib) (out : llm_output) (r : ExtractionResponse) :
  process_llm_output L out = Ok r ->
  Forall2
    (fun given page =>
       given_page_no given = Some (PStr (page_no page))
       /\ Forall2
            (fun given_item item =>
               given_item_name given_item = Some (PStr (item_name item))
               /\ forall x, given_item_amount given_item = Some (PFloat x) ->
                            item_amount item = x)
            (given_items given) (bill_items page))
    (given_pages (extracted_data out)) (data_pagewise_line_items (data r)).
Proof.
  intros H. destruct (process_llm_output_ok L out r H) as (e & u & He & _ & ->).
  simpl. apply init_ok_pages in He. revert He. apply Forall2_impl.
  intros given page Hv. destruct (validate_page_items L given page Hv) as (Hno & Hitems).
  split; [exact Hno |]. revert Hitems. apply Forall2_impl.
  exact (validate_item_fields L).
Qed.

Lemma pages_and_items_keep_their_order_witness :
  Forall2
    (fun given page =>
       given_page_no given = Some (PStr (page_no page))
       /\ Forall2
            (fun given_item item =>
               given_item_name given_item = Some (PStr (item_name item))
               /\ forall x, given_item_amount given_item = Some (PFloat x) ->
                            item_amount item = x)
            (given_items given) (bill_items page))
    (given_pages bill_value) bill_pages.
Proof.
  apply (pages_and_items_keep_their_order ref_lib
           (bill_llm_output (PInt 1200) (PInt 340) (PInt 1540)) bill_response).
  vm_compute. reflexivity.
Defined.

(** X15. The reported grand total is never used but must be there: a
    model output without [document_final_total], or with one that a float
    field does not take, is rejected with the 500 of a validation error,
    whatever its pages are. *)
Theorem reported_total_is_required
  (L : pylib) (out : llm_output) (d : list (string * pyval)) :
  extracted_data out = PDict d ->
  reported_total_ok L d = false ->
  map_exception (process_llm_output L out) = Raise (uncaught "ValidationError").
Proof.
  intros Hd Hbad. unfold process_llm_output. rewrite Hd. simpl.
  destruct (required (validate_list (validate_PagewiseLineItem L)) d "pagewise_line_items")
    as [pages | e] eqn:Hp; simpl.
  - unfold reported_total_ok in Hbad. unfold required at 1.
    destruct (dict_lookup "document_final_total" d) as [v |]; [| reflexivity].
    rewrite (numeric_false L v Hbad). reflexivity.
  - rewrite (required_raise _ d _ e
               (validate_list_raise _ (validate_PagewiseLineItem_raise L)) Hp).
    reflexivity.
Qed.

Lemma reported_total_is_required_witness :
  map_exception (process_llm_output ref_lib (output_of no_total_value))
  = Raise (uncaught "ValidationError").
Proof.
  apply (reported_total_is_required ref_lib (output_of no_total_value)
           [("pagewise_line_items",
             PList [make_page "1" "Bill Detail"
                      [make_item "A" (PFloat 100) (PFloat 100) (PInt 1)]])]);
    reflexivity.
Defined.

(** Generated text that parses to something else than a JSON object
    (a list, a number, [null]) is not a validation error: unpacking it at
    line 186 raises [TypeError], and the endpoint turns that into the 500
    "UNCAUGHT SERVER ERROR: TypeError. Check Render logs.". *)
Lemma output_must_be_an_object (L : pylib) (out : llm_output) :
  is_dict (extracted_data out) = false ->
  map_exception (process_llm_output L out) = Raise (uncaught "TypeError").
Proof.
  intros H. unfold process_llm_output.
  destruct (extracted_data out); try reflexivity. discriminate H.
Qed.

Lemma output_must_be_an_object_witness :
  map_exception (process_llm_output ref_lib (output_of (PList [])))
  = Raise (uncaught "TypeError").
Proof.
  apply (output_must_be_an_object ref_lib (output_of (PList []))). reflexivity.
Defined.

Lemma float_sum_zeros (l : list float) :
  Forall (fun x => x = 0%float) l -> float_sum l = 0%float.
Proof.
  unfold float_sum. induction 1 as [| x l -> _ IH]; simpl; [reflexivity |].
  change (0 + 0)%float with 0%float. exact IH.
Qed.

(** X16. When no page of a success response has an item, be it for want
    of pages, the total is 0.0 and the item count is 0. *)
Theorem no_items_no_total (L : pylib) (out : llm_output) (r : ExtractionResponse) :
  process_llm_output L out = Ok r ->
  Forall (fun page => bill_items page = []) (data_pagewise_line_items (data r)) ->
  final_total_extracted (data r) = 0%float /\ total_item_count (data r) = 0.
Proof.
  intros H. destruct (process_llm_output_ok L out r H) as (e & u & _ & _ & ->).
  clear H. simpl. intros Hempty. split.
  - unfold sum_item_amounts. rewrite float_sum_zeros; [reflexivity |].
    induction Hempty as [| page pages Hp _ IH]; simpl; constructor.
    + rewrite Hp. reflexivity.
    + exact IH.
  - unfold count_bill_items.
    induction Hempty as [| page pages Hp _ IH]; simpl; [reflexivity |].
    rewrite Hp. exact IH.
Qed.

Lemma no_items_no_total_witness :
  final_total_extracted (data empty_page_response) = 0%float
  /\ total_item_count (data empty_page_response) = 0.
Proof.
  apply (no_items_no_total ref_lib (output_of empty_page_value) empty_page_response).
  - vm_compute. reflexivity.
  - repeat constructor.
Defined.

Lemma integral_false (L : pylib) (v : pyval) :
  integral L v = false -> validate_int L v = Raise ValidationError.
Proof.
  destruct v; simpl; try congruence.
  - unfold float_as_int. destruct (float_integral x) as [a |]; simpl; [| congruence].
    intros ->. reflexivity.
  - destruct (str_as_int L s); simpl; congruence.
Qed.

Lemma integral_true (L : pylib) (v : pyval) :
  integral L v = true -> exists n, validate_int L v = Ok n.
Proof.
  destruct v; simpl; try congruence; eauto.
  - unfold float_as_int. destruct (float_integral x) as [a |]; simpl; [| congruence].
    intros ->. simpl. eauto.
  - destruct (str_as_int L s); simpl; [eauto | congruence].
Qed.

(** The integer of a float lies within the 64-bit range; [1e19], [2^63]
    and [-2^63] are refused, the largest float below [2^63] is taken. *)
Lemma float_as_int_range (x : float) (a : Z) :
  float_as_int x = Some a -> - 2 ^ 63 < a < 2 ^ 63.
Proof.
  unfold float_as_int. destruct (float_integral x) as [b |]; [| discriminate].
  destruct ((- 2 ^ 63 <? b) && (b <? 2 ^ 63)) eqn:E; [| discriminate].
  intros H. injection H as <-.
  apply andb_prop in E as [E1 E2]. split; apply Z.ltb_lt; assumption.
Qed.

Lemma float_as_int_examples :
  float_as_int 1e19 = None
  /\ float_as_int 9223372036854775808 = None
  /\ float_as_int (-9223372036854775808) = None
  /\ float_as_int 9223372036854774784 = Some 9223372036854774784
  /\ float_as_int 1200 = Some 1200
  /\ float_as_int 1200.5 = None
  /\ float_as_int infinity = None
  /\ float_as_int nan = None.
Proof.
  vm_compute. repeat split.
Qed.

Lemma validate_int_raise (L : pylib) : only_validation_error (validate_int L).
Proof.
  intros [] e; simpl; try congruence; apply validated_raise.
Qed.

(** X17. A model output that validates is still rejected, with the 500 of
    a validation error, when one of the token counts taken from the reply
    is not a value an integer field takes: a float with a fraction, a
    float that is whole but not strictly between [-2^63] and [2^63]
    ([1e19], say), text that is no integer, a list.  When all three
    counts are such values, and only then, a response is returned. *)
Theorem non_integral_counts_reject
  (L : pylib) (out : llm_output) (extracted : LLMExtractionOutput) :
  LLMExtractionOutput_init L (extracted_data out) = Ok extracted ->
  (counts_integral L (llm_token_usage out) = false ->
   map_exception (process_llm_output L out) = Raise (uncaught "ValidationError"))
  /\ (counts_integral L (llm_token_usage out) = true ->
      exists r, process_llm_output L out = Ok r).
Proof.
  intros He. split; [intros Hbad | intros Hgood].
  2:{ unfold counts_integral in Hgood.
      apply andb_prop in Hgood as [Hgood H3]. apply andb_prop in Hgood as [H1 H2].
      destruct (integral_true L _ H1) as [n1 E1].
      destruct (integral_true L _ H2) as [n2 E2].
      destruct (integral_true L _ H3) as [n3 E3].
      eexists.
      apply (process_llm_output_validated L out extracted
               {| total_tokens := n1; input_tokens := n2; output_tokens := n3 |} He).
      unfold TokenUsage_init. rewrite E1, E2, E3. reflexivity. }
  unfold process_llm_output. rewrite He. simpl.
  unfold build_response. rewrite aggregate_spec.
  destruct (TokenUsage_init L (llm_token_usage out)) as [u | e] eqn:Hu.
  - exfalso. unfold TokenUsage_init in Hu. bind_inv Hu. bind_inv Hu. bind_inv Hu.
    unfold counts_integral in Hbad.
    destruct (integral L (tu_total_tokens (llm_token_usage out))) eqn:I1;
      [| rewrite (integral_false L _ I1) in Ha; discriminate Ha].
    destruct (integral L (tu_input_tokens (llm_token_usage out))) eqn:I2;
      [| rewrite (integral_false L _ I2) in Ha0; discriminate Ha0].
    destruct (integral L (tu_output_tokens (llm_token_usage out))) eqn:I3;
      [discriminate Hbad | rewrite (integral_false L _ I3) in Ha1; discriminate Ha1].
  - simpl. unfold TokenUsage_init in Hu.
    assert (e = ValidationError) as ->; [| reflexivity].
    repeat (apply bind_raise in Hu; destruct Hu as [Hu | (? & _ & Hu)];
            [exact (validate_int_raise L _ e Hu) |]).
    discriminate Hu.
Qed.

Lemma non_integral_counts_reject_witness :
  map_exception
    (process_llm_output ref_lib
       (bill_llm_output (PFloat 1e19) (PInt 340) (PFloat 1e19)))
  = Raise (uncaught "ValidationError").
Proof.
  apply (non_integral_counts_reject ref_lib
           (bill_llm_output (PFloat 1e19) (PInt 340) (PFloat 1e19))
           {| pagewise_line_items := bill_pages; document_final_total := 999.99 |}).
  - vm_compute. reflexivity.
  - vm_compute. reflexivity.
Defined.

(** ** Model client: further cases *)

Lemma is_429_inv (rep : reply) :
  is_429 rep = true -> exists r, rep = Responds r /\ status_code r = 429.
Proof.
  destruct rep as [c | r]; simpl; [discriminate |].
  intros H. exists r. split; [reflexivity | apply Z.eqb_eq, H].
Qed.

(** X18. An answer that parses is returned on whichever of the three
    attempts it comes, provided the calls before it were answered with
    429: after [k] such calls ([k] at most 2) the loop has made [k + 1]
    calls and slept 1, then 2, between them. *)
Theorem success_after_rate_limits
  (L : pylib) (w : world) (body : payload) (k : nat) (out : llm_output) :
  (k <= 2)%nat ->
  (forall i, (i < k)%nat -> is_429 (requests_post w i) = true) ->
  attempt_try L (requests_post w k) = Ok out ->
  retry_loop L w body (py_range max_retries) None []
  = (Ok out, firstn (2 * k + 1) (three_attempts body)).
Proof.
  intros Hk Hbefore Hok.
  destruct k as [| [| [| k]]]; [| | | lia].
  - change (py_range max_retries) with [0; 1; 2].
    apply (retry_loop_returns L w body 0 _ None []). exact Hok.
  - destruct (is_429_inv _ (Hbefore 0%nat ltac:(lia))) as (r0 & H0 & S0).
    change (py_range max_retries) with [0; 1; 2].
    rewrite (retry_loop_continues L w body 0 _ None [] "HTTPError");
      change (count_posts []) with 0%nat; rewrite H0;
      [| apply attempt_try_429, S0 | apply rate_limited_429, S0 ].
    apply (retry_loop_returns L w body 1 _ _ (([] ++ [POST body]) ++ [SLEEP (2 ^ 0)])).
    exact Hok.
  - destruct (is_429_inv _ (Hbefore 0%nat ltac:(lia))) as (r0 & H0 & S0).
    destruct (is_429_inv _ (Hbefore 1%nat ltac:(lia))) as (r1 & H1 & S1).
    exact (retry_loop_429_429_ok L w body r0 r1 out H0 S0 H1 S1 Hok).
Qed.

Lemma success_after_rate_limits_witness :
  retry_loop ref_lib
    (world_script [Responds rate_limit_answer;
                   Responds (model_answer bill_text (PInt 1200) (PInt 340))])
    bill_payload (py_range max_retries) None []
  = (Ok (bill_llm_output (PInt 1200) (PInt 340) (PInt 1540)), two_attempts bill_payload).
Proof.
  apply (success_after_rate_limits ref_lib
           (world_script [Responds rate_limit_answer;
                          Responds (model_answer bill_text (PInt 1200) (PInt 340))])
           bill_payload 1 (bill_llm_output (PInt 1200) (PInt 340) (PInt 1540))).
  - lia.
  - intros i Hi. assert (i = 0%nat) as -> by lia. reflexivity.
  - vm_compute. reflexivity.
Defined.

(** X19. A reply whose generated text parses and which has no
    [usageMetadata] at all is returned with the three token counts 0. *)
Theorem absent_usage_metadata_counts_zero
  (L : pylib) (r : Response) (d : list (string * pyval)) (extracted : pyval) :
  raise_for_status r = Ok tt ->
  json_body r = Some (PDict d) ->
  parsed_output L (PDict d) = Ok extracted ->
  dict_lookup "usageMetadata" d = None ->
  attempt_try L (Responds r)
  = Ok {| extracted_data := extracted;
          llm_token_usage := {| tu_input_tokens := PInt 0;
                                tu_output_tokens := PInt 0;
                                tu_total_tokens := PInt 0 |} |}.
Proof.
  intros Hs Hj Hp Hu.
  rewrite (attempt_try_parsed L r (PDict d) Hs Hj), Hp. simpl. rewrite Hu. reflexivity.
Qed.

Lemma absent_usage_metadata_counts_zero_witness :
  attempt_try ref_lib (Responds no_usage_answer)
  = Ok (bill_llm_output (PInt 0) (PInt 0) (PInt 0)).
Proof.
  apply (absent_usage_metadata_counts_zero ref_lib no_usage_answer
           [("candidates",
             PList [PDict [("content",
                            PDict [("parts", PList [PDict [("text", PStr bill_text)]])])]])]
           bill_value);
    reflexivity.
Defined.

(** X20. An error reply (4xx or 5xx, not 429) whose body
    [response.json()] cannot read loses its status: [response.json()]
    raises inside the handler of line 153, so what leaves the loop is the
    exception of [response.json()] (the [JSONDecodeError] of [requests]
    for a body that is not JSON) and not an [HTTPException] with the
    status of the reply; the endpoint's handler makes a 500 of it, naming
    the class. *)
Theorem error_reply_without_json
  (L : pylib) (w : world) (body : payload) (t : list event) (r : Response) :
  requests_post w (count_posts t) = Responds r ->
  raise_for_status r = Raise (RequestException "HTTPError") ->
  status_code r <> 429 ->
  json_body r = None ->
  retry_loop L w body (py_range max_retries) None t
  = (Raise (response_json_exception (json_error r)), t ++ one_attempt body)
  /\ map_exception (fst (retry_loop L w body (py_range max_retries) None t))
     = Raise (uncaught (class_name (response_json_exception (json_error r))))
  /\ (json_error r = NotJSON ->
      retry_loop L w body (py_range max_retries) None t
      = (Raise (RequestException "JSONDecodeError"), t ++ one_attempt body)
      /\ map_exception (fst (retry_loop L w body (py_range max_retries) None t))
         = Raise (uncaught "JSONDecodeError")).
Proof.
  intros Hpost Hstatus H429 Hjson.
  assert (retry_loop L w body (py_range max_retries) None t
          = (Raise (response_json_exception (json_error r)), t ++ one_attempt body)) as E.
  { change (py_range max_retries) with [0; 1; 2].
    rewrite (retry_loop_gives_up L w body 0 _ None t "HTTPError"); rewrite Hpost.
    - simpl. unfold response_json. rewrite Hjson. reflexivity.
    - unfold attempt_try. rewrite Hstatus. reflexivity.
    - unfold rate_limited. simpl.
      destruct (Z.eqb_spec (status_code r) 429) as [E | _]; [contradiction | reflexivity]. }
  rewrite E. split; [reflexivity | split].
  - destruct (json_error r); reflexivity.
  - intros ->. split; reflexivity.
Qed.

Lemma error_reply_without_json_witness :
  retry_loop ref_lib (world_script [Responds html_error_answer]) bill_payload
    (py_range max_retries) None []
  = (Raise (RequestException "JSONDecodeError"), one_attempt bill_payload)
  /\ map_exception
       (fst (retry_loop ref_lib (world_script [Responds html_error_answer]) bill_payload
               (py_range max_retries) None []))
     = Raise (uncaught "JSONDecodeError").
Proof.
  refine (proj2 (proj2 (error_reply_without_json ref_lib
                          (world_script [Responds html_error_answer])
                          bill_payload [] html_error_answer _ _ _ _)) _);
    first [reflexivity | discriminate].
Defined.
